(** * Call intake and triage service (main.py)

    A shallow embedding of the request handlers of [main.py]: the webhook
    handler [receive_vapi_webhook], the classifier [analyze_with_ai], the
    appointment endpoint [create_appointment] and the callback endpoint
    [mark_callback], together with the two in-memory stores they share.

    Python values that come out of [json.loads] are modelled by the type
    [json]; exceptions are explicit ([res]); the two module-level lists are
    an explicit state threaded through a small state-and-exception monad.
    The two [print] calls of the webhook handler, which write text taken
    from the payload and from the classification, can raise when standard
    output cannot encode that text; the [print] calls of the classifier,
    which write a fixed text or the message of an exception, are taken to
    succeed. *)

From Stdlib Require Import ZArith String Ascii List Lia.
From stdpp Require Import base list strings pretty relations.
Import ListNotations.

Local Open Scope string_scope.
Local Open Scope list_scope.
Local Set Warnings "-register-all".

(** ** Python values *)

(** The values [json.loads] can produce.  A number is modelled by an
    integer; a dict is the list of its items in insertion order, and the
    first item with a given key is the binding of that key. *)
Inductive json : Type :=
| JNull
| JBool (b : bool)
| JInt (n : Z)
| JStr (s : string)
| JList (xs : list json)
| JObj (kv : list (string * json)).

Inductive exn : Type :=
| KeyError
| TypeError
| AttributeError
| ValueError
| ServiceError
| UnicodeEncodeError.

Inductive res (A : Type) : Type :=
| Ret (a : A)
| Raise (e : exn).
Arguments Ret {A} a.
Arguments Raise {A} e.

Definition res_bind {A B} (r : res A) (k : A -> res B) : res B :=
  match r with
  | Ret a => k a
  | Raise e => Raise e
  end.

(** [try: body except Exception: handler] *)
Definition try_except {A} (body : res A) (handler : exn -> res A) : res A :=
  match body with
  | Ret a => Ret a
  | Raise e => handler e
  end.

Fixpoint res_map {A B} (f : A -> res B) (l : list A) : res (list B) :=
  match l with
  | [] => Ret []
  | a :: l' =>
      res_bind (f a) (fun b => res_bind (res_map f l') (fun bs => Ret (b :: bs)))
  end.

Fixpoint assoc (k : string) (kv : list (string * json)) : option json :=
  match kv with
  | [] => None
  | (k', v) :: kv' => if String.eqb k k' then Some v else assoc k kv'
  end.

(** Truth value of a Python object, as used by [or] and [not]. *)
Definition py_truthy (v : json) : bool :=
  match v with
  | JNull => false
  | JBool b => b
  | JInt n => negb (Z.eqb n 0)
  | JStr s => negb (String.eqb s "")
  | JList xs => match xs with [] => false | _ => true end
  | JObj kv => match kv with [] => false | _ => true end
  end.

(** [a or b] *)
Definition py_or (a b : json) : json := if py_truthy a then a else b.

(** [a == b].  Booleans compare equal to the integers 0 and 1; two dicts
    are equal when they have the same number of items and every key of the
    first is bound in the second to an equal value. *)
Fixpoint py_eq (a b : json) {struct a} : bool :=
  match a, b with
  | JNull, JNull => true
  | JBool x, JBool y => Bool.eqb x y
  | JBool x, JInt n => Z.eqb (if x then 1 else 0) n
  | JInt n, JBool y => Z.eqb n (if y then 1 else 0)
  | JInt n, JInt m => Z.eqb n m
  | JStr s, JStr t => String.eqb s t
  | JList xs, JList ys =>
      (fix items (xs ys : list json) {struct xs} : bool :=
         match xs, ys with
         | [], [] => true
         | x :: xs', y :: ys' => py_eq x y && items xs' ys'
         | _, _ => false
         end) xs ys
  | JObj xs, JObj ys =>
      Nat.eqb (length xs) (length ys) &&
      (fix items (xs : list (string * json)) {struct xs} : bool :=
         match xs with
         | [] => true
         | (k, v) :: xs' =>
             match assoc k ys with
             | Some w => py_eq v w
             | None => false
             end && items xs'
         end) xs
  | _, _ => false
  end.

(** [v.get(k, d)]: only a dict has the method. *)
Definition py_get (v : json) (k : string) (d : json) : res json :=
  match v with
  | JObj kv => Ret (match assoc k kv with Some x => x | None => d end)
  | _ => Raise AttributeError
  end.

(** [v[k]] for a string key [k]. *)
Definition py_getitem (v : json) (k : string) : res json :=
  match v with
  | JObj kv => match assoc k kv with Some x => Ret x | None => Raise KeyError end
  | _ => Raise TypeError
  end.

(** [k in v] for a string [k]. *)
Definition py_contains (k : string) (v : json) : res bool :=
  match v with
  | JObj kv => Ret (match assoc k kv with Some _ => true | None => false end)
  | JList xs => Ret (existsb (py_eq (JStr k)) xs)
  | JStr s => Ret (match String.index 0 k s with Some _ => true | None => false end)
  | _ => Raise TypeError
  end.


Definition newline : string := String (ascii_of_nat 10) EmptyString.

(** ** Records and stores *)

(** The dict built by [receive_vapi_webhook] for one call. *)
Module CallRecord.
Record t : Type := mk {
  id : json;
  phone : json;
  transcript : string;
  summary : json;
  urgency : json;
  category : json;
  duration : json;
  timestamp : string;
  called_back : bool
}.

(** [c['called_back'] = True] *)
Definition set_called_back (c : t) : t :=
  {| id := id c; phone := phone c; transcript := transcript c;
     summary := summary c; urgency := urgency c; category := category c;
     duration := duration c; timestamp := timestamp c; called_back := true |}.
End CallRecord.

(** The dict built by [create_appointment]. *)
Module Appointment.
Record t : Type := mk {
  id : string;
  title : string;
  start : string;
  patient : json;
  notes : json;
  type : string
}.
End Appointment.

(** The two module-level lists. *)
Record Store : Type := mkStore {
  calls_database : list CallRecord.t;
  appointments_database : list Appointment.t
}.

Definition empty_store : Store :=
  {| calls_database := []; appointments_database := [] |}.

(** What a handler returns to the framework. *)
Inductive Response : Type :=
| Status (status : string)
| StatusAppointment (status : string) (appointment : Appointment.t).

(** What one request sees of the outside world: the reply of the
    classification service to the user message it is sent (an exception, or
    the content of the first choice, which may be [None]), and the clock. *)
Record World : Type := mkWorld {
  chat_completions_create : string -> res (option string);
  datetime_now : string
}.

(** ** Sample inputs

    Concrete payloads, service replies and stand-ins for the outside
    functions, on which the handlers are run in the examples below. *)
Module Samples.

Definition dquote : string := String (ascii_of_nat 34) EmptyString.
Definition quoted (s : string) : string := dquote +:+ s +:+ dquote.

(** [repr] of a string that needs no escaping. *)
Definition repr_str (s : string) : string := "'" +:+ s +:+ "'".

(** A standard output that encodes to UTF-8.  A text is held as its UTF-8
    bytes, a lone surrogate as the three bytes its code point would take
    (237, then a byte from 160 to 191, then one more); a text with such
    bytes is what the encoder refuses. *)
Fixpoint printable (text : string) : bool :=
  match text with
  | EmptyString => true
  | String c rest =>
      match rest with
      | String d _ =>
          if Nat.eqb (nat_of_ascii c) 237
             && Nat.leb 160 (nat_of_ascii d) && Nat.leb (nat_of_ascii d) 191
          then false else printable rest
      | EmptyString => true
      end
  end.

(** The lone surrogate U+D83D. *)
Definition lone_surrogate : string :=
  String (ascii_of_nat 237) (String (ascii_of_nat 160)
    (String (ascii_of_nat 189) EmptyString)).

(** The text of a well-formed reply of the classification service. *)
Definition complete_reply : string :=
  "{" +:+ quoted "summary" +:+ ": " +:+ quoted "Chest pain" +:+ ", "
      +:+ quoted "urgency" +:+ ": " +:+ quoted "EMERGENCY" +:+ ", "
      +:+ quoted "category" +:+ ": " +:+ quoted "Cardiology" +:+ "}".

Definition complete_analysis : json :=
  JObj [("summary", JStr "Chest pain"); ("urgency", JStr "EMERGENCY");
        ("category", JStr "Cardiology")].

(** A reply that parses but lacks the field [category]. *)
Definition incomplete_reply : string :=
  "{" +:+ quoted "summary" +:+ ": " +:+ quoted "Cough" +:+ ", "
      +:+ quoted "urgency" +:+ ": " +:+ quoted "ROUTINE" +:+ "}".

Definition incomplete_analysis : json :=
  JObj [("summary", JStr "Cough"); ("urgency", JStr "ROUTINE")].

(** A complete reply whose category is a lone surrogate. *)
Definition surrogate_reply : string :=
  "{" +:+ quoted "summary" +:+ ": " +:+ quoted "Cough" +:+ ", "
      +:+ quoted "urgency" +:+ ": " +:+ quoted "ROUTINE" +:+ ", "
      +:+ quoted "category" +:+ ": " +:+ quoted "\ud83d" +:+ "}".

Definition surrogate_analysis : json :=
  JObj [("summary", JStr "Cough"); ("urgency", JStr "ROUTINE");
        ("category", JStr lone_surrogate)].

(** [json.loads] on the texts used here; any other text is rejected. *)
Definition json_loads (s : string) : res json :=
  if String.eqb s complete_reply then Ret complete_analysis
  else if String.eqb s incomplete_reply then Ret incomplete_analysis
  else if String.eqb s surrogate_reply then Ret surrogate_analysis
  else if String.eqb s "{}" then Ret (JObj [])
  else Raise ValueError.

Definition api_key : option string := Some "gsk_test".

Definition world_ok : World :=
  {| chat_completions_create := fun _ => Ret (Some complete_reply);
     datetime_now := "2024-01-01 10:00:00" |}.

Definition world_incomplete : World :=
  {| chat_completions_create := fun _ => Ret (Some incomplete_reply);
     datetime_now := "2024-01-01 10:05:00" |}.

Definition world_down : World :=
  {| chat_completions_create := fun _ => Raise ServiceError;
     datetime_now := "2024-01-01 10:10:00" |}.

Definition world_surrogate : World :=
  {| chat_completions_create := fun _ => Ret (Some surrogate_reply);
     datetime_now := "2024-01-01 10:12:00" |}.


Definition end_of_call (fields : list (string * json)) : json :=
  JObj [("message", JObj (("type", JStr "end-of-call-report") :: fields))].

(** An end-of-call report with a structured transcript and no call id. *)
Definition payload_report : json :=
  end_of_call
    [("transcript",
      JList [JObj [("role", JStr "assistant"); ("content", JStr "How can I help?")];
             JObj [("role", JStr "user"); ("content", JStr "My chest hurts")];
             JObj [("content", JStr "...")]]);
     ("duration", JInt 42)].

(** An end-of-call report with a plain transcript and no call id. *)
Definition payload_plain : json :=
  end_of_call [("transcript", JStr "I need a checkup")].

(** An end-of-call report that carries the external call id "2". *)
Definition payload_external_2 : json :=
  end_of_call [("callId", JStr "2"); ("transcript", JStr "hello")].

Definition payload_status_update : json :=
  JObj [("message", JObj [("type", JStr "status-update")])].

Definition call (id : json) (called_back : bool) : CallRecord.t :=
  {| CallRecord.id := id; CallRecord.phone := JStr "Unknown";
     CallRecord.transcript := ""; CallRecord.summary := JStr "Cough";
     CallRecord.urgency := JStr "ROUTINE"; CallRecord.category := JStr "General";
     CallRecord.duration := JInt 0; CallRecord.timestamp := "2024-01-01 09:00:00";
     CallRecord.called_back := called_back |}.

(** A store in which the id "7" occurs twice. *)
Definition store_duplicates : Store :=
  {| calls_database := [call (JStr "7") false; call (JStr "1") false;
                        call (JStr "7") false];
     appointments_database := [] |}.

Definition appointment_request (call_id : json) : json :=
  JObj [("phone", JStr "+15550100"); ("date", JStr "2024-01-02");
        ("time", JStr "09:30"); ("call_id", call_id)].

Definition appointment_request_no_date : json :=
  JObj [("phone", JStr "+15550100"); ("time", JStr "09:30");
        ("call_id", JStr "7")].

(** An end-of-call report whose customer has an empty [number] and a
    [phoneNumber]. *)
Definition payload_customer : json :=
  JObj [("message", JObj [("type", JStr "end-of-call-report")]);
        ("call",
         JObj [("customer",
                JObj [("number", JStr ""); ("phoneNumber", JStr "+15550123")])])].

(** A structured transcript with an entry that is not a dict. *)
Definition message_bad_transcript : list (string * json) :=
  [("type", JStr "end-of-call-report");
   ("transcript",
    JList [JObj [("role", JStr "user"); ("content", JStr "hello")];
           JStr "oops"])].

(** An end-of-call report whose customer number is a lone surrogate. *)
Definition payload_surrogate_phone : json :=
  JObj [("message", JObj [("type", JStr "end-of-call-report")]);
        ("call",
         JObj [("customer", JObj [("number", JStr lone_surrogate)])])].

(** A store with two records that carry the ids of their positions. *)
Definition store_numbered : Store :=
  {| calls_database := [call (JStr "1") false; call (JStr "2") true];
     appointments_database := [] |}.

(** A store with the number 5 and the string "5" as ids. *)
Definition store_numeric_id : Store :=
  {| calls_database := [call (JInt 5) false; call (JStr "5") false];
     appointments_database := [] |}.

End Samples.

(** ** The handlers

    A handler is a function of the store that returns a value or raises,
    together with the store it leaves behind: what a handler has written
    before it raises stays written. *)
Definition M (A : Type) : Type := Store -> res A * Store.

Definition ret {A} (a : A) : M A := fun st => (Ret a, st).
Definition lift {A} (r : res A) : M A := fun st => (r, st).
Definition bind {A B} (m : M A) (k : A -> M B) : M B :=
  fun st =>
    match m st with
    | (Ret a, st') => k a st'
    | (Raise e, st') => (Raise e, st')
    end.
Definition get_store : M Store := fun st => (Ret st, st).
Definition put_store (st : Store) : M unit := fun _ => (Ret tt, st).

Declare Scope py_scope.
Delimit Scope py_scope with py.
Notation "x <- m ;; k" := (bind m (fun x => k))
  (at level 63, m at next level, right associativity) : py_scope.
Notation "m ;;; k" := (bind m (fun _ => k))
  (at level 63, right associativity) : py_scope.
Notation "x <~ r ;; k" := (res_bind r (fun x => k))
  (at level 63, r at next level, right associativity) : py_scope.

(** The body shared by the two loops [for c in calls_database: if c['id']
    == target: c['called_back'] = True]. *)
Fixpoint mark_matching (target : json) (cs : list CallRecord.t)
  : list CallRecord.t :=
  match cs with
  | [] => []
  | c :: rest =>
      (if py_eq (CallRecord.id c) target
       then CallRecord.set_called_back c else c)
      :: mark_matching target rest
  end.

Definition status_skipped : Response := Status "skipped".
Definition status_success : Response := Status "success".
Definition status_updated : Response := Status "updated".

Definition fallback_key_missing : json :=
  JObj [("summary", JStr "AI Key Missing"); ("urgency", JStr "ROUTINE");
        ("category", JStr "General")].

Definition fallback_analysis_failed : json :=
  JObj [("summary", JStr "Analysis failed"); ("urgency", JStr "ROUTINE");
        ("category", JStr "Unknown")].

(** [not key] for the value of [os.getenv]. *)
Definition key_missing (key : option string) : bool :=
  match key with
  | None => true
  | Some s => String.eqb s ""
  end.

(** [json.loads(content)]: anything but a string is a [TypeError]. *)
Definition loads_content (loads : string -> res json) (content : option string)
  : res json :=
  match content with
  | None => Raise TypeError
  | Some s => loads s
  end.

Section Service.

(** What lies outside [main.py]: the quoting of a string by [repr], the
    JSON parser, the credential read from the environment when the module
    is loaded, and the texts standard output can encode. *)
Variable repr_str : string -> string.
Variable json_loads : string -> res json.
Variable GROQ_API_KEY : option string.
Variable printable : string -> bool.

(** [repr(v)] *)
Fixpoint py_repr (v : json) : string :=
  match v with
  | JNull => "None"
  | JBool true => "True"
  | JBool false => "False"
  | JInt n => pretty n
  | JStr s => repr_str s
  | JList xs => "[" +:+ String.concat ", " (map py_repr xs) +:+ "]"
  | JObj kv =>
      "{" +:+ String.concat ", "
               (map (fun kv => repr_str (fst kv) +:+ ": " +:+ py_repr (snd kv)) kv)
          +:+ "}"
  end.

(** [str(v)], also what an f-string field [{v}] renders. *)
Definition py_str (v : json) : string :=
  match v with
  | JStr s => s
  | _ => py_repr v
  end.

Local Open Scope py_scope.

(** [print(text)]: raises when standard output cannot encode the text. *)
Definition py_print (text : string) : res unit :=
  if printable text then Ret tt else Raise UnicodeEncodeError.

(** *** [analyze_with_ai] *)
Definition analyze_with_ai (w : World) (transcript : string) : res json :=
  if key_missing GROQ_API_KEY then Ret fallback_key_missing
  else
    try_except
      (completion <~ chat_completions_create w ("Transcript: " +:+ transcript) ;;
       result <~ loads_content json_loads completion ;;
       Ret result)
      (fun _ => Ret fallback_analysis_failed).

(** *** [receive_vapi_webhook] *)

(** [data.get("message", {}).get("type", "")] *)
Definition message_type_of (data : json) : res json :=
  message <~ py_get data "message" (JObj []) ;;
  py_get message "type" (JStr "").

(** The block "Extract Basic Data". *)
Definition extract_phone (data : json) : res json :=
  let phone := JStr "Unknown" in
  has_call <~ py_contains "call" data ;;
  if has_call : bool then
    call <~ py_getitem data "call" ;;
    customer <~ py_get call "customer" (JObj []) ;;
    number <~ py_get customer "number" JNull ;;
    if py_truthy number then Ret number
    else
      phoneNumber <~ py_get customer "phoneNumber" JNull ;;
      Ret (py_or phoneNumber phone)
  else Ret phone.

(** [f"{m.get('role')}: {m.get('content')}"] *)
Definition render_message (m : json) : res string :=
  role <~ py_get m "role" JNull ;;
  content <~ py_get m "content" JNull ;;
  Ret (py_str role +:+ ": " +:+ py_str content).

(** The block "Build Transcript". *)
Definition build_transcript (call_data : json) : res string :=
  raw_transcript <~ py_get call_data "transcript" (JStr "") ;;
  match raw_transcript with
  | JList ms =>
      lines <~ res_map render_message ms ;;
      Ret (String.concat newline lines)
  | _ => Ret (py_str raw_transcript)
  end.

(** The dict display that builds [call_record]; its entries are evaluated
    in the order they are written. *)
Definition build_call_record (w : World) (call_data phone : json)
    (transcript : string) (ai_analysis : json) : M CallRecord.t :=
  callId <- lift (py_get call_data "callId" JNull) ;;
  st <- get_store ;;
  let id := py_or callId (JStr (pretty (length (calls_database st) + 1)%nat)) in
  summary <- lift (py_getitem ai_analysis "summary") ;;
  urgency <- lift (py_getitem ai_analysis "urgency") ;;
  category <- lift (py_getitem ai_analysis "category") ;;
  duration <- lift (py_get call_data "duration" (JInt 0)) ;;
  ret {| CallRecord.id := id;
         CallRecord.phone := phone;
         CallRecord.transcript := transcript;
         CallRecord.summary := summary;
         CallRecord.urgency := urgency;
         CallRecord.category := category;
         CallRecord.duration := duration;
         CallRecord.timestamp := datetime_now w;
         CallRecord.called_back := false |}.

(** [calls_database.append(call_record)] *)
Definition append_call (r : CallRecord.t) : M unit :=
  st <- get_store ;;
  put_store {| calls_database := calls_database st ++ [r];
               appointments_database := appointments_database st |}.

(** [f"🤖 Analyzing call from {phone} with Groq..."] *)
Definition analyzing_line (phone : json) : string :=
  "🤖 Analyzing call from " +:+ py_str phone +:+ " with Groq...".

(** [f"✅ Saved Analysis: {ai_analysis['urgency']} - {ai_analysis['category']}"] *)
Definition saved_line (urgency category : json) : string :=
  "✅ Saved Analysis: " +:+ py_str urgency +:+ " - " +:+ py_str category.

Definition receive_vapi_webhook (w : World) (data : json) : M Response :=
  message_type <- lift (message_type_of data) ;;
  if negb (py_eq message_type (JStr "end-of-call-report"))
  then ret status_skipped
  else
    call_data <- lift (py_get data "message" (JObj [])) ;;
    phone <- lift (extract_phone data) ;;
    transcript <- lift (build_transcript call_data) ;;
    lift (py_print (analyzing_line phone)) ;;;
    ai_analysis <- lift (analyze_with_ai w transcript) ;;
    call_record <- build_call_record w call_data phone transcript ai_analysis ;;
    append_call call_record ;;;
    urgency <- lift (py_getitem ai_analysis "urgency") ;;
    category <- lift (py_getitem ai_analysis "category") ;;
    lift (py_print (saved_line urgency category)) ;;;
    ret status_success.

(** *** [get_calls], [get_appointments] *)
Definition get_calls : M (list CallRecord.t) :=
  st <- get_store ;; ret (calls_database st).

Definition get_appointments : M (list Appointment.t) :=
  st <- get_store ;; ret (appointments_database st).

(** *** [create_appointment] *)
Definition build_appointment (data : json) : M Appointment.t :=
  st <- get_store ;;
  let id := pretty (length (appointments_database st) + 1)%nat in
  phone <- lift (py_getitem data "phone") ;;
  date <- lift (py_getitem data "date") ;;
  time <- lift (py_getitem data "time") ;;
  patient <- lift (py_getitem data "phone") ;;
  notes <- lift (py_get data "notes" (JStr "")) ;;
  ret {| Appointment.id := id;
         Appointment.title := "Callback: " +:+ py_str phone;
         Appointment.start := py_str date +:+ "T" +:+ py_str time;
         Appointment.patient := patient;
         Appointment.notes := notes;
         Appointment.type := "callback" |}.

(** [appointments_database.append(appt)] *)
Definition append_appointment (a : Appointment.t) : M unit :=
  st <- get_store ;;
  put_store {| calls_database := calls_database st;
               appointments_database := appointments_database st ++ [a] |}.

(** The loop "Update call status": [data.get('call_id')] is evaluated
    anew for every record.  It can only raise when [data] is not a dict,
    and then it raises at the first record, before any record is marked. *)
Fixpoint update_call_status (data : json) (cs : list CallRecord.t)
  : res (list CallRecord.t) :=
  match cs with
  | [] => Ret []
  | c :: rest =>
      target <~ py_get data "call_id" JNull ;;
      let c' := if py_eq (CallRecord.id c) target
                then CallRecord.set_called_back c else c in
      rest' <~ update_call_status data rest ;;
      Ret (c' :: rest')
  end.

(** [calls_database] after the loop. *)
Definition put_calls (cs : list CallRecord.t) : M unit :=
  st <- get_store ;;
  put_store {| calls_database := cs;
               appointments_database := appointments_database st |}.

Definition create_appointment (data : json) : M Response :=
  appt <- build_appointment data ;;
  append_appointment appt ;;;
  st <- get_store ;;
  calls <- lift (update_call_status data (calls_database st)) ;;
  put_calls calls ;;;
  ret (StatusAppointment "success" appt).

(** *** [mark_callback] *)
Definition mark_callback (call_id : string) : M Response :=
  st <- get_store ;;
  put_calls (mark_matching (JStr call_id) (calls_database st)) ;;;
  ret status_updated.

(** ** The routes

    The five routes registered on [app], as requests, and the server as
    the function that hands a request to its handler.  A request whose
    handler raises is answered with an error by the framework, and the
    server goes on with the store the handler left. *)
Inductive Request : Type :=
| PostWebhook (w : World) (data : json)
| GetCalls
| GetAppointments
| PostAppointment (data : json)
| PostCallback (call_id : string).

Inductive Reply : Type :=
| ReplyResponse (r : Response)
| ReplyCalls (calls : list CallRecord.t)
| ReplyAppointments (appointments : list Appointment.t).

Definition serve (request : Request) : M Reply :=
  match request with
  | PostWebhook w data =>
      r <- receive_vapi_webhook w data ;; ret (ReplyResponse r)
  | GetCalls => calls <- get_calls ;; ret (ReplyCalls calls)
  | GetAppointments =>
      appointments <- get_appointments ;; ret (ReplyAppointments appointments)
  | PostAppointment data =>
      r <- create_appointment data ;; ret (ReplyResponse r)
  | PostCallback call_id =>
      r <- mark_callback call_id ;; ret (ReplyResponse r)
  end.

(** The store after a sequence of requests served one after the other. *)
Fixpoint serve_all (requests : list Request) (st : Store) : Store :=
  match requests with
  | [] => st
  | request :: requests' => serve_all requests' (serve request st).2
  end.

(** ** Concurrent requests

    The handlers that are [async def] run as coroutines of one event loop:
    a coroutine gives up control only at an [await], and the only [await]
    of [receive_vapi_webhook] is the read of the request body on its first
    line.  A webhook request therefore takes two steps: its body arrives,
    then the rest of the handler runs without interruption.  The steps of
    different requests interleave in any order. *)
Inductive task : Type :=
| Arrived (w : World) (data : json)
| Running (w : World) (data : json)
| Finished (r : res Response).

(** Let task [i] take its next step. *)
Definition fire (i : nat) (s : Store * list task) : option (Store * list task) :=
  match s.2 !! i with
  | Some (Arrived w data) => Some (s.1, <[i := Running w data]> s.2)
  | Some (Running w data) =>
      Some ((receive_vapi_webhook w data s.1).2,
            <[i := Finished (receive_vapi_webhook w data s.1).1]> s.2)
  | _ => None
  end.

(** Run the steps a schedule names, in order. *)
Fixpoint run (schedule : list nat) (s : Store * list task)
  : option (Store * list task) :=
  match schedule with
  | [] => Some s
  | i :: schedule' =>
      match fire i s with
      | Some s' => run schedule' s'
      | None => None
      end
  end.

Definition arrive (request : World * json) : task :=
  Arrived request.1 request.2.


(** ** Vocabulary of the statements *)

(** The store after one more call record. *)
Definition append_to_calls (r : CallRecord.t) (st : Store) : Store :=
  {| calls_database := calls_database st ++ [r];
     appointments_database := appointments_database st |}.

(** The call id the handler reads from a payload:
    [data.get("message", {}).get("callId")]. *)
Definition external_id (data : json) : res json :=
  call_data <~ py_get data "message" (JObj []) ;;
  py_get call_data "callId" JNull.

(** The ids that [n] inserts without a call id of their own are given. *)
Definition auto_ids (n : nat) : list json :=
  map (fun i : nat => JStr (pretty i)) (seq 1 n).

(** Every record of the store carries the id of its position. *)
Definition auto_numbered (cs : list CallRecord.t) : Prop :=
  map CallRecord.id cs = auto_ids (length cs).

(** The request body is a dict with the key [k]. *)
Definition has_field (data : json) (k : string) : bool :=
  match data with
  | JObj kv => match assoc k kv with Some _ => true | None => false end
  | _ => false
  end.

(** The store after one more appointment and a scan of the call records
    for the id [target]. *)
Definition appointment_made (a : Appointment.t) (target : json) (st : Store)
  : Store :=
  {| calls_database := mark_matching target (calls_database st);
     appointments_database := appointments_database st ++ [a] |}.

(** Two call records agree on every field but [called_back]. *)
Definition same_call (c c' : CallRecord.t) : Prop :=
  CallRecord.id c' = CallRecord.id c /\
  CallRecord.phone c' = CallRecord.phone c /\
  CallRecord.transcript c' = CallRecord.transcript c /\
  CallRecord.summary c' = CallRecord.summary c /\
  CallRecord.urgency c' = CallRecord.urgency c /\
  CallRecord.category c' = CallRecord.category c /\
  CallRecord.duration c' = CallRecord.duration c /\
  CallRecord.timestamp c' = CallRecord.timestamp c.

(** A message object of a structured transcript. *)
Definition is_object (v : json) : bool :=
  match v with
  | JObj _ => true
  | _ => false
  end.

(** The text that stands for the field [k] of the message [m]: its string
    form, or the token "None" when the message has no such field. *)
Definition field_text (m : json) (k : string) : string :=
  match m with
  | JObj kv => match assoc k kv with Some v => py_str v | None => "None" end
  | _ => "None"
  end.

(** The rendering "<role>: <content>" of one message. *)
Definition rendering (m : json) : string :=
  field_text m "role" +:+ ": " +:+ field_text m "content".

(** The payload brings no call id of its own: what the handler reads as
    [callId] is missing or falsy. *)
Definition no_external_id (data : json) : bool :=
  match external_id data with
  | Ret v => negb (py_truthy v)
  | Raise _ => true
  end.

(** The task has run to its end and stored a record. *)
Definition inserted (t : task) : bool :=
  match t with
  | Finished (Ret (Status s)) => String.eqb s "success"
  | _ => false
  end.

Fixpoint count_inserted (ts : list task) : nat :=
  match ts with
  | [] => 0
  | t :: ts' => (if inserted t then 1 else 0) + count_inserted ts'
  end.

(** A task that has not run yet still holds the request it was made of. *)
Definition tracks (request : World * json) (t : task) : Prop :=
  match t with
  | Arrived w data | Running w data => request = (w, data)
  | Finished _ => True
  end.

(** The task has run to its end, whatever its outcome. *)
Definition finished (t : task) : bool :=
  match t with
  | Finished _ => true
  | _ => false
  end.

Fixpoint count_finished (ts : list task) : nat :=
  match ts with
  | [] => 0
  | t :: ts' => (if finished t then 1 else 0) + count_finished ts'
  end.

(** What every schedule maintains: the call records are numbered by
    position; there is one for every task that answered "success", and no
    more of them than tasks that have run. *)
Definition consistent (requests : list (World * json)) (s : Store * list task)
  : Prop :=
  Forall2 tracks requests s.2 /\
  auto_numbered (calls_database s.1) /\
  (count_inserted s.2 <= length (calls_database s.1) <= count_finished s.2)%nat.

(** An end-of-call payload of the expected shape: [message] is a dict whose
    transcript, if a list, is a list of dicts, and [call], if present, is a
    dict whose [customer], if present, is a dict. *)
Definition transcript_ok (message : list (string * json)) : bool :=
  match assoc "transcript" message with
  | Some (JList ms) => forallb is_object ms
  | _ => true
  end.

Definition customer_ok (payload : list (string * json)) : bool :=
  match assoc "call" payload with
  | None => true
  | Some (JObj call) =>
      match assoc "customer" call with
      | None | Some (JObj _) => true
      | Some _ => false
      end
  | Some _ => false
  end.

Definition well_formed_report (data : json) : bool :=
  match data with
  | JObj payload =>
      match assoc "message" payload with
      | Some (JObj message) => transcript_ok message && customer_ok payload
      | _ => false
      end
  | _ => false
  end.

(** A classification with the three fields the handler reads. *)
Definition complete_analysis (ai : json) : bool :=
  has_field ai "summary" && has_field ai "urgency" && has_field ai "category".

(** A payload from which the handler can read an event type: a dict whose
    [message], if present, is a dict. *)
Definition readable (data : json) : bool :=
  match data with
  | JObj payload =>
      match assoc "message" payload with
      | None | Some (JObj _) => true
      | Some _ => false
      end
  | _ => false
  end.

(** A call record as a later store shows it: the same fields, and
    [called_back] still set if it was. *)
Definition call_kept (c c' : CallRecord.t) : Prop :=
  same_call c c' /\
  (CallRecord.called_back c = true -> CallRecord.called_back c' = true).

(** The later store keeps every call record of the earlier one in its
    place, and every appointment unchanged. *)
Definition extends (st st' : Store) : Prop :=
  (forall (i : nat) c,
     calls_database st !! i = Some c ->
     exists c', calls_database st' !! i = Some c' /\ call_kept c c') /\
  (exists more,
     appointments_database st' = appointments_database st ++ more).

(** The ids of [n] appointments. *)
Definition appointment_ids (n : nat) : list string :=
  map (fun i : nat => pretty i) (seq 1 n).

(** A store that some sequence of requests leads to from the empty one. *)
Definition reachable (st : Store) : Prop :=
  exists requests, st = serve_all requests empty_store.

(** No webhook request of the sequence brings a call id of its own. *)
Definition without_external_ids (requests : list Request) : bool :=
  forallb
    (fun request =>
       match request with
       | PostWebhook _ data => no_external_id data
       | _ => true
       end)
    requests.

(** ** Properties *)

(** *** Python values *)

Lemma py_eq_str (v : json) (s : string) :
  py_eq v (JStr s) = true <-> v = JStr s.
Proof.
  destruct v; simpl; split; intros H; try discriminate.
  - apply String.eqb_eq in H. congruence.
  - injection H as ->. apply String.eqb_refl.
Qed.

Lemma py_getitem_object (v : json) (k : string) (x : json) :
  py_getitem v k = Ret x -> exists kv, v = JObj kv /\ assoc k kv = Some x.
Proof.
  destruct v; simpl; intros H; try discriminate.
  destruct (assoc k kv) eqn:E; [injection H as -> | discriminate]. eauto.
Qed.

(** *** The monad *)

Ltac unfold_m :=
  unfold bind, lift, ret, get_store, put_store, put_calls in *; simpl in *.

(** *** [build_call_record] *)

Lemma build_call_record_store w call_data phone transcript ai st :
  (build_call_record w call_data phone transcript ai st).2 = st.
Proof.
  unfold build_call_record. unfold_m.
  destruct (py_get call_data "callId" JNull); simpl; [ | reflexivity ].
  destruct (py_getitem ai "summary"); simpl; [ | reflexivity ].
  destruct (py_getitem ai "urgency"); simpl; [ | reflexivity ].
  destruct (py_getitem ai "category"); simpl; [ | reflexivity ].
  destruct (py_get call_data "duration" (JInt 0)); reflexivity.
Qed.

Lemma build_call_record_ret w call_data phone transcript ai st r st' :
  build_call_record w call_data phone transcript ai st = (Ret r, st') ->
  exists callId,
    py_get call_data "callId" JNull = Ret callId /\
    CallRecord.id r
      = py_or callId (JStr (pretty (length (calls_database st) + 1)%nat)) /\
    CallRecord.phone r = phone /\
    CallRecord.transcript r = transcript /\
    py_getitem ai "summary" = Ret (CallRecord.summary r) /\
    py_getitem ai "urgency" = Ret (CallRecord.urgency r) /\
    py_getitem ai "category" = Ret (CallRecord.category r) /\
    py_get call_data "duration" (JInt 0) = Ret (CallRecord.duration r) /\
    CallRecord.timestamp r = datetime_now w /\
    CallRecord.called_back r = false.
Proof.
  unfold build_call_record. unfold_m.
  destruct (py_get call_data "callId" JNull) as [callId|]; simpl; [ | discriminate ].
  destruct (py_getitem ai "summary"); simpl; [ | discriminate ].
  destruct (py_getitem ai "urgency"); simpl; [ | discriminate ].
  destruct (py_getitem ai "category"); simpl; [ | discriminate ].
  destruct (py_get call_data "duration" (JInt 0)); simpl; [ | discriminate ].
  intros [= <- <-]. exists callId. simpl. repeat split; reflexivity.
Qed.

(** *** [receive_vapi_webhook], case by case *)

Lemma receive_vapi_webhook_cases w data st :
  (exists e, receive_vapi_webhook w data st = (Raise e, st)) \/
  (exists t, message_type_of data = Ret t /\
     py_eq t (JStr "end-of-call-report") = false /\
     receive_vapi_webhook w data st = (Ret status_skipped, st)) \/
  (exists call_data phone transcript ai r,
     message_type_of data = Ret (JStr "end-of-call-report") /\
     py_get data "message" (JObj []) = Ret call_data /\
     extract_phone data = Ret phone /\
     build_transcript call_data = Ret transcript /\
     analyze_with_ai w transcript = Ret ai /\
     build_call_record w call_data phone transcript ai st = (Ret r, st) /\
     printable (analyzing_line phone) = true /\
     ((printable (saved_line (CallRecord.urgency r) (CallRecord.category r))
       = true /\
       receive_vapi_webhook w data st
       = (Ret status_success, append_to_calls r st)) \/
      (printable (saved_line (CallRecord.urgency r) (CallRecord.category r))
       = false /\
       receive_vapi_webhook w data st
       = (Raise UnicodeEncodeError, append_to_calls r st)))).
Proof.
  remember (receive_vapi_webhook w data st) as out eqn:Hout.
  unfold receive_vapi_webhook in Hout.
  unfold bind at 1, lift at 1 in Hout.
  destruct (message_type_of data) as [t|e] eqn:Et; [ | left; eauto ].
  destruct (py_eq t (JStr "end-of-call-report")) eqn:Eq; simpl in Hout;
    [ | right; left; eauto ].
  apply py_eq_str in Eq. subst t.
  unfold bind at 1, lift at 1 in Hout.
  destruct (py_get data "message" (JObj [])) as [call_data|e] eqn:Ec;
    [ | left; eauto ].
  unfold bind at 1, lift at 1 in Hout.
  destruct (extract_phone data) as [phone|e] eqn:Ep; [ | left; eauto ].
  unfold bind at 1, lift at 1 in Hout.
  destruct (build_transcript call_data) as [transcript|e] eqn:Eb;
    [ | left; eauto ].
  unfold bind at 1, lift at 1, py_print at 1 in Hout.
  destruct (printable (analyzing_line phone)) eqn:Ep1; [ | left; eauto ].
  unfold bind at 1, lift at 1 in Hout.
  destruct (analyze_with_ai w transcript) as [ai|e] eqn:Ea; [ | left; eauto ].
  unfold bind at 1 in Hout.
  pose proof (build_call_record_store w call_data phone transcript ai st) as Hs.
  destruct (build_call_record w call_data phone transcript ai st)
    as [[r|e] st1] eqn:Er; simpl in Hs; subst st1; [ | left; eauto ].
  right; right. exists call_data, phone, transcript, ai, r.
  do 7 (split; [first [assumption | reflexivity] | ]).
  destruct (build_call_record_ret _ _ _ _ _ _ _ _ Er)
    as (callId & _ & _ & _ & _ & _ & Hu & Hc & _).
  unfold append_call, bind, lift, get_store, put_store, ret in Hout.
  rewrite Hu, Hc in Hout. unfold py_print in Hout.
  destruct (printable (saved_line (CallRecord.urgency r)
                         (CallRecord.category r)));
    [left | right]; (split; [reflexivity | exact Hout]).
Qed.

(** What the handler did when it answered. *)
Lemma receive_vapi_webhook_ret w data st resp st' :
  receive_vapi_webhook w data st = (Ret resp, st') ->
  (exists t, message_type_of data = Ret t /\
     py_eq t (JStr "end-of-call-report") = false /\
     resp = status_skipped /\ st' = st) \/
  (exists call_data phone transcript ai r,
     message_type_of data = Ret (JStr "end-of-call-report") /\
     py_get data "message" (JObj []) = Ret call_data /\
     extract_phone data = Ret phone /\
     build_transcript call_data = Ret transcript /\
     analyze_with_ai w transcript = Ret ai /\
     build_call_record w call_data phone transcript ai st = (Ret r, st) /\
     printable (analyzing_line phone) = true /\
     printable (saved_line (CallRecord.urgency r) (CallRecord.category r))
     = true /\
     resp = status_success /\ st' = append_to_calls r st).
Proof.
  intros Hrun.
  destruct (receive_vapi_webhook_cases w data st)
    as [[e He] | [(t & Ht & Hne & Hs) | Hok]].
  - rewrite He in Hrun. discriminate.
  - rewrite Hs in Hrun. injection Hrun as <- <-. left. eauto.
  - destruct Hok as (call_data & phone & transcript & ai & r & Ht & Hcd & Hp
                     & Hb & Ha & Hrec & Hp1 & [[Hp2 Hout] | [Hp2 Hout]]);
      rewrite Hout in Hrun; [ | discriminate ].
    injection Hrun as <- <-. right.
    exists call_data, phone, transcript, ai, r. repeat split; assumption.
Qed.

(** The store the handler leaves: the one it found, or that one with one
    more record. *)
Lemma webhook_store w data st :
  (receive_vapi_webhook w data st).2 = st \/
  exists r callId,
    external_id data = Ret callId /\
    CallRecord.id r
    = py_or callId (JStr (pretty (length (calls_database st) + 1)%nat)) /\
    (receive_vapi_webhook w data st).2 = append_to_calls r st.
Proof.
  destruct (receive_vapi_webhook_cases w data st)
    as [[e He] | [(t & _ & _ & Hs) | Hok]].
  - left. rewrite He. reflexivity.
  - left. rewrite Hs. reflexivity.
  - right. destruct Hok as (call_data & phone & transcript & ai & r & _ & Hcd
                            & _ & _ & _ & Hrec & _ & Hout).
    apply build_call_record_ret in Hrec as (callId & Hcid & Hid & _).
    exists r, callId. unfold external_id. rewrite Hcd. simpl.
    split; [exact Hcid | split; [exact Hid | ]].
    destruct Hout as [[_ ->] | [_ ->]]; reflexivity.
Qed.

Lemma auto_ids_fresh (n : nat) (v : json) :
  In v (auto_ids n) -> v <> JStr (pretty (n + 1)%nat).
Proof.
  unfold auto_ids. intros Hin Heq. apply in_map_iff in Hin as (i & Hi & Hin).
  apply in_seq in Hin. subst v. injection Heq as Heq.
  apply pretty_nat_inj in Heq. lia.
Qed.

Lemma auto_ids_NoDup (n : nat) : List.NoDup (auto_ids n).
Proof.
  unfold auto_ids. apply Finite.Injective_map_NoDup; [ | apply List.seq_NoDup ].
  intros i j Heq. injection Heq as Heq. apply pretty_nat_inj in Heq. exact Heq.
Qed.

Lemma auto_numbered_fresh (cs : list CallRecord.t) :
  auto_numbered cs ->
  List.Forall
    (fun c => CallRecord.id c <> JStr (pretty (length cs + 1)%nat)) cs.
Proof.
  intros Hauto. apply List.Forall_forall. intros c Hc.
  apply auto_ids_fresh. rewrite <- Hauto. apply in_map. exact Hc.
Qed.

Lemma auto_numbered_append (cs : list CallRecord.t) (r : CallRecord.t) :
  auto_numbered cs ->
  CallRecord.id r = JStr (pretty (length cs + 1)%nat) ->
  auto_numbered (cs ++ [r]).
Proof.
  unfold auto_numbered, auto_ids. intros Hauto Hid.
  rewrite map_app, length_app, seq_app, map_app, Hauto. simpl.
  rewrite Hid. do 4 f_equal. lia.
Qed.

(** *** The claims about the webhook handler *)

(** C1 (as amended): when the handler completes on an end-of-call
    payload, it has appended exactly one record to the call store and left
    the appointment store alone; the record's id is the payload's callId
    when that is truthy and [str(len(calls_database) + 1)] otherwise; and
    that id differs from every id already stored when the payload brings no
    call id and every stored record carries the id of its position. *)
Theorem webhook_appends_one_record w data st resp st' :
  message_type_of data = Ret (JStr "end-of-call-report") ->
  receive_vapi_webhook w data st = (Ret resp, st') ->
  exists r callId,
    resp = status_success /\
    calls_database st' = calls_database st ++ [r] /\
    appointments_database st' = appointments_database st /\
    external_id data = Ret callId /\
    CallRecord.id r
      = (if py_truthy callId then callId
         else JStr (pretty (length (calls_database st) + 1)%nat)) /\
    CallRecord.called_back r = false /\
    (py_truthy callId = false ->
     auto_numbered (calls_database st) ->
     List.Forall (fun c => CallRecord.id c <> CallRecord.id r)
       (calls_database st)).
Proof.
  intros Htype Hrun.
  destruct (receive_vapi_webhook_ret _ _ _ _ _ Hrun)
    as [(t & Ht & Hne & _) | Hok].
  - rewrite Htype in Ht. injection Ht as <-. simpl in Hne.
    discriminate.
  - destruct Hok as (call_data & phone & transcript & ai & r & _ & Hcd & _ & _
                     & _ & Hrec & _ & _ & -> & ->).
    apply build_call_record_ret in Hrec
      as (callId & Hcid & Hid & _ & _ & _ & _ & _ & _ & _ & Hcb).
    exists r, callId. unfold external_id. rewrite Hcd. simpl.
    unfold py_or in Hid. repeat split; try assumption.
    intros Hfalsy Hauto. rewrite Hid, Hfalsy.
    apply auto_numbered_fresh, Hauto.
Qed.

Lemma webhook_raise_store w data st e st' :
  receive_vapi_webhook w data st = (Raise e, st') ->
  st' = st \/ (e = UnicodeEncodeError /\ exists r, st' = append_to_calls r st).
Proof.
  intros Hrun.
  destruct (receive_vapi_webhook_cases w data st)
    as [[e' He] | [(t & _ & _ & Hs) | (? & ? & ? & ? & r & Hok)]].
  - rewrite He in Hrun. left. congruence.
  - rewrite Hs in Hrun. discriminate.
  - destruct Hok as (_ & _ & _ & _ & _ & _ & _ & [[_ Hout] | [_ Hout]]);
      rewrite Hout in Hrun; [discriminate | ].
    injection Hrun as <- <-. right. eauto.
Qed.

(** C3 (as amended): when the event type the handler reads from the
    payload is not "end-of-call-report", also when none can be read, no
    record is created: both stores are left as they were; and whenever an
    event type can be read and has another value, the answer is the status
    "skipped". *)
Theorem webhook_skips_other_events w data st :
  message_type_of data <> Ret (JStr "end-of-call-report") ->
  (receive_vapi_webhook w data st).2 = st /\
  (forall t, message_type_of data = Ret t ->
             (receive_vapi_webhook w data st).1 = Ret status_skipped).
Proof.
  intros Hne.
  destruct (receive_vapi_webhook_cases w data st)
    as [[e He] | [(t & Ht & _ & Hs) | (? & ? & ? & ? & ? & Ht & _)]].
  - rewrite He. split; [reflexivity | ]. intros t Ht. simpl.
    unfold receive_vapi_webhook, bind, lift in He. rewrite Ht in He.
    destruct (py_eq t (JStr "end-of-call-report")) eqn:Eq; simpl in He.
    + apply py_eq_str in Eq. congruence.
    + discriminate.
  - rewrite Hs. split; reflexivity.
  - contradiction.
Qed.

(** *** The classifier *)

Lemma analyze_with_ai_returns w transcript :
  exists result, analyze_with_ai w transcript = Ret result.
Proof.
  unfold analyze_with_ai.
  destruct (key_missing GROQ_API_KEY); [eauto | ].
  destruct (chat_completions_create w ("Transcript: " +:+ transcript))
    as [content|e]; simpl; [ | eauto ].
  destruct (loads_content json_loads content); simpl; eauto.
Qed.



(** *** The scan of the call records *)

Lemma mark_matching_length target cs :
  length (mark_matching target cs) = length cs.
Proof. induction cs as [|c cs IH]; simpl; congruence. Qed.

Lemma mark_matching_lookup target cs (i : nat) :
  mark_matching target cs !! i
  = (fun c => if py_eq (CallRecord.id c) target
              then CallRecord.set_called_back c else c) <$> (cs !! i).
Proof.
  revert i. induction cs as [|c cs IH]; intros [|i]; simpl; auto.
Qed.

Lemma mark_matching_idempotent target cs :
  mark_matching target (mark_matching target cs) = mark_matching target cs.
Proof.
  induction cs as [|c cs IH]; simpl; [reflexivity | ].
  rewrite IH. f_equal.
  destruct (py_eq (CallRecord.id c) target) eqn:E; simpl; rewrite E; reflexivity.
Qed.

Lemma mark_matching_no_match target cs :
  List.Forall (fun c => py_eq (CallRecord.id c) target = false) cs ->
  mark_matching target cs = cs.
Proof.
  induction 1 as [|c cs Hc _ IH]; simpl; [reflexivity | ].
  rewrite Hc, IH. reflexivity.
Qed.

Lemma mark_matching_marked target cs :
  List.Forall
    (fun c => py_eq (CallRecord.id c) target = true ->
              CallRecord.called_back c = true)
    (mark_matching target cs).
Proof.
  induction cs as [|c cs IH]; simpl; constructor; auto.
  destruct (py_eq (CallRecord.id c) target) eqn:E; simpl; congruence.
Qed.

(** *** [create_appointment], case by case *)

Lemma has_field_getitem data k :
  has_field data k = true <-> exists x, py_getitem data k = Ret x.
Proof.
  destruct data; simpl; try (split; [discriminate | intros [x Hx]; discriminate]).
  destruct (assoc k kv); split; eauto; try discriminate.
  intros [x Hx]. discriminate.
Qed.

Lemma build_appointment_ret data st :
  has_field data "phone" && has_field data "date" && has_field data "time"
  = true ->
  exists phone date time notes,
    py_getitem data "phone" = Ret phone /\
    py_getitem data "date" = Ret date /\
    py_getitem data "time" = Ret time /\
    py_get data "notes" (JStr "") = Ret notes /\
    build_appointment data st
    = (Ret {| Appointment.id :=
                pretty (length (appointments_database st) + 1)%nat;
              Appointment.title := "Callback: " +:+ py_str phone;
              Appointment.start := py_str date +:+ "T" +:+ py_str time;
              Appointment.patient := phone;
              Appointment.notes := notes;
              Appointment.type := "callback" |}, st).
Proof.
  intros H. apply andb_prop in H as [H Ht]. apply andb_prop in H as [Hp Hd].
  apply has_field_getitem in Hp as [phone Hp].
  apply has_field_getitem in Hd as [date Hd].
  apply has_field_getitem in Ht as [time Ht].
  destruct (py_getitem_object _ _ _ Hp) as (kv & -> & _).
  exists phone, date, time,
    (match assoc "notes" kv with Some x => x | None => JStr "" end).
  split; [exact Hp | split; [exact Hd | split; [exact Ht | split]]].
  - reflexivity.
  - unfold build_appointment, bind, lift, get_store, ret.
    rewrite Hp, Hd, Ht. reflexivity.
Qed.

Lemma build_appointment_raise data st :
  has_field data "phone" && has_field data "date" && has_field data "time"
  = false ->
  exists e, build_appointment data st = (Raise e, st).
Proof.
  intros H. unfold build_appointment. unfold_m.
  destruct (py_getitem data "phone") eqn:Hp; simpl; [ | eauto ].
  destruct (py_getitem data "date") eqn:Hd; simpl; [ | eauto ].
  destruct (py_getitem data "time") eqn:Ht; simpl; [ | eauto ].
  exfalso.
  assert (has_field data "phone" = true) as Fp by (apply has_field_getitem; eauto).
  assert (has_field data "date" = true) as Fd by (apply has_field_getitem; eauto).
  assert (has_field data "time" = true) as Ft by (apply has_field_getitem; eauto).
  rewrite Fp, Fd, Ft in H. discriminate.
Qed.

Lemma update_call_status_object kv cs :
  update_call_status (JObj kv) cs
  = Ret (mark_matching
           (match assoc "call_id" kv with Some x => x | None => JNull end) cs).
Proof.
  induction cs as [|c cs IH]; simpl; [reflexivity | ].
  rewrite IH. reflexivity.
Qed.

Lemma create_appointment_after_build data st appt :
  build_appointment data st = (Ret appt, st) ->
  exists target,
    py_get data "call_id" JNull = Ret target /\
    create_appointment data st
    = (Ret (StatusAppointment "success" appt), appointment_made appt target st).
Proof.
  intros Hb. unfold create_appointment, bind at 1. rewrite Hb.
  assert (exists kv, data = JObj kv) as [kv ->].
  { unfold build_appointment in Hb. unfold_m.
    destruct (py_getitem data "phone") eqn:Hp; [ | discriminate ].
    apply py_getitem_object in Hp as (kv & -> & _). eauto. }
  eexists. split; [reflexivity | ].
  unfold append_appointment, put_calls, appointment_made. unfold_m.
  rewrite update_call_status_object. reflexivity.
Qed.

(** *** The claims about appointments and callbacks *)

(** C4: a request that lacks [phone], [date] or [time] makes
    [create_appointment] raise, and both stores are as they were. *)
Theorem create_appointment_rejects_missing_field data st :
  has_field data "phone" && has_field data "date" && has_field data "time"
  = false ->
  exists e, create_appointment data st = (Raise e, st).
Proof.
  intros H. destruct (build_appointment_raise data st H) as [e He].
  exists e. unfold create_appointment, bind. rewrite He. reflexivity.
Qed.

(** C7: a request with [phone], [date] and [time] creates and returns an
    appointment; every call record whose id equals the request's [call_id]
    has [called_back] set and keeps its other fields, every other call
    record is unchanged, and when no id matches the call store is
    unchanged. *)
Theorem create_appointment_cross_reference data st :
  has_field data "phone" && has_field data "date" && has_field data "time"
  = true ->
  exists appt target st',
    py_get data "call_id" JNull = Ret target /\
    create_appointment data st = (Ret (StatusAppointment "success" appt), st') /\
    appointments_database st' = appointments_database st ++ [appt] /\
    length (calls_database st') = length (calls_database st) /\
    (forall (i : nat) c,
       calls_database st !! i = Some c ->
       exists c',
         calls_database st' !! i = Some c' /\
         same_call c c' /\
         (py_eq (CallRecord.id c) target = true ->
          CallRecord.called_back c' = true) /\
         (py_eq (CallRecord.id c) target = false -> c' = c)) /\
    (List.Forall (fun c => py_eq (CallRecord.id c) target = false)
       (calls_database st) ->
     calls_database st' = calls_database st).
Proof.
  intros H.
  destruct (build_appointment_ret data st H)
    as (phone & date & time & notes & _ & _ & _ & _ & Hb).
  destruct (create_appointment_after_build _ _ _ Hb) as (target & Ht & Hc).
  eexists _, target, _. split; [exact Ht | split; [exact Hc | ]]. simpl.
  split; [reflexivity | split; [apply mark_matching_length | split]].
  - intros i c Hi. rewrite mark_matching_lookup, Hi. simpl.
    eexists. split; [reflexivity | ].
    destruct (py_eq (CallRecord.id c) target); repeat split; congruence.
  - apply mark_matching_no_match.
Qed.

(** C8: marking the same id a second time changes nothing: the store
    after two calls of [mark_callback] is the store after one, it has as
    many records as before and the same ids, and every record with the
    marked id has [called_back] set. *)
Theorem mark_callback_idempotent call_id st :
  exists st1,
    mark_callback call_id st = (Ret status_updated, st1) /\
    mark_callback call_id st1 = (Ret status_updated, st1) /\
    length (calls_database st1) = length (calls_database st) /\
    appointments_database st1 = appointments_database st /\
    List.Forall
      (fun c => py_eq (CallRecord.id c) (JStr call_id) = true ->
                CallRecord.called_back c = true)
      (calls_database st1).
Proof.
  eexists. split; [reflexivity | ]. unfold mark_callback. unfold_m.
  rewrite mark_matching_idempotent.
  split; [reflexivity | ].
  split; [apply mark_matching_length | ].
  split; [reflexivity | apply mark_matching_marked].
Qed.


(** *** The claim about the transcript *)

Lemma render_message_object kv :
  render_message (JObj kv) = Ret (rendering (JObj kv)).
Proof.
  unfold render_message, rendering, field_text. simpl.
  destruct (assoc "role" kv), (assoc "content" kv); reflexivity.
Qed.

Lemma res_map_render_objects ms :
  forallb is_object ms = true ->
  res_map render_message ms = Ret (map rendering ms).
Proof.
  induction ms as [|m ms IH]; simpl; [reflexivity | ].
  intros H. apply andb_prop in H as [Hm Hms].
  destruct m; try discriminate.
  rewrite render_message_object, (IH Hms). reflexivity.
Qed.


(** *** When the handler completes *)

Lemma extract_phone_returns payload :
  customer_ok payload = true ->
  exists phone, extract_phone (JObj payload) = Ret phone.
Proof.
  unfold customer_ok, extract_phone. simpl.
  destruct (assoc "call" payload) as [call|]; [ | eauto ].
  destruct call as [| | | | |call]; try discriminate. simpl.
  destruct (assoc "customer" call) as [customer|]; simpl.
  - destruct customer as [| | | | |customer]; try discriminate. simpl. intros _.
    destruct (py_truthy _); eauto.
  - eauto.
Qed.

Lemma build_transcript_returns message :
  transcript_ok message = true ->
  exists transcript, build_transcript (JObj message) = Ret transcript.
Proof.
  unfold transcript_ok, build_transcript. simpl.
  destruct (assoc "transcript" message) as [raw|]; [ | eauto ].
  destruct raw; eauto. intros Hms.
  rewrite (res_map_render_objects _ Hms). simpl. eauto.
Qed.

Lemma build_call_record_returns w message phone transcript ai st :
  complete_analysis ai = true ->
  exists r,
    build_call_record w (JObj message) phone transcript ai st = (Ret r, st).
Proof.
  unfold complete_analysis. intros H.
  apply andb_prop in H as [H Hc]. apply andb_prop in H as [Hs Hu].
  apply has_field_getitem in Hs as [summary Hs].
  apply has_field_getitem in Hu as [urgency Hu].
  apply has_field_getitem in Hc as [category Hc].
  unfold build_call_record, bind, lift, get_store, ret. simpl.
  rewrite Hs, Hu, Hc. eauto.
Qed.

(** The handler from the results of its stages: once the first line is
    printed and the record built, the record is stored, and the answer
    hangs on the second line. *)
Lemma webhook_run w data st call_data phone transcript ai r :
  message_type_of data = Ret (JStr "end-of-call-report") ->
  py_get data "message" (JObj []) = Ret call_data ->
  extract_phone data = Ret phone ->
  build_transcript call_data = Ret transcript ->
  printable (analyzing_line phone) = true ->
  analyze_with_ai w transcript = Ret ai ->
  build_call_record w call_data phone transcript ai st = (Ret r, st) ->
  receive_vapi_webhook w data st
  = (if printable (saved_line (CallRecord.urgency r) (CallRecord.category r))
     then Ret status_success else Raise UnicodeEncodeError,
     append_to_calls r st).
Proof.
  intros Htype Hcd Hp Hb Hp1 Ha Hr.
  destruct (build_call_record_ret _ _ _ _ _ _ _ _ Hr)
    as (callId & _ & _ & _ & _ & _ & Hu & Hc & _).
  unfold receive_vapi_webhook, bind, lift, py_print. rewrite Htype. simpl.
  rewrite Hcd, Hp, Hb, Hp1, Ha, Hr. simpl. rewrite Hu, Hc.
  destruct (printable (saved_line (CallRecord.urgency r)
                         (CallRecord.category r))); reflexivity.
Qed.

(** On a payload of the expected shape, with a classification that has
    its three fields and a standard output that takes every text, the
    handler completes and stores a record. *)
Lemma webhook_completes w data st :
  message_type_of data = Ret (JStr "end-of-call-report") ->
  well_formed_report data = true ->
  (forall transcript ai,
     analyze_with_ai w transcript = Ret ai -> complete_analysis ai = true) ->
  (forall text, printable text = true) ->
  exists r,
    receive_vapi_webhook w data st = (Ret status_success, append_to_calls r st).
Proof.
  intros Htype Hwf Hai Hprint.
  destruct data as [| | | | |payload]; try discriminate. simpl in Hwf.
  destruct (assoc "message" payload) as [message|] eqn:Hm; [ | discriminate ].
  destruct message as [| | | | |message]; try discriminate.
  apply andb_prop in Hwf as [Htr Hcu].
  destruct (extract_phone_returns _ Hcu) as [phone Hp].
  destruct (build_transcript_returns _ Htr) as [transcript Hb].
  destruct (analyze_with_ai_returns w transcript) as [ai Ha].
  destruct (build_call_record_returns w message phone transcript ai st
              (Hai _ _ Ha)) as [r Hr].
  exists r.
  rewrite (webhook_run w _ st (JObj message) phone transcript ai r);
    try assumption; try apply Hprint.
  - rewrite Hprint. reflexivity.
  - simpl. rewrite Hm. reflexivity.
Qed.

(** *** The claim about incomplete classification results *)

(** C6 (what the code does): when the classification parses to a dict
    that lacks [summary], [urgency] or [category], the handler raises and
    stores nothing.  What it raises is [KeyError], from the subscript, unless
    the line it prints before the classification could not be written, and
    then it had raised [UnicodeEncodeError] there. *)
Theorem webhook_incomplete_analysis_raises
    w data st call_data phone transcript kv :
  message_type_of data = Ret (JStr "end-of-call-report") ->
  py_get data "message" (JObj []) = Ret call_data ->
  extract_phone data = Ret phone ->
  build_transcript call_data = Ret transcript ->
  analyze_with_ai w transcript = Ret (JObj kv) ->
  assoc "summary" kv = None \/ assoc "urgency" kv = None
    \/ assoc "category" kv = None ->
  receive_vapi_webhook w data st
  = (Raise (if printable (analyzing_line phone)
            then KeyError else UnicodeEncodeError), st).
Proof.
  intros Ht Hcd Hp Hb Ha Hmiss.
  unfold receive_vapi_webhook, bind, lift, py_print. rewrite Ht. simpl.
  rewrite Hcd, Hp, Hb.
  destruct (printable (analyzing_line phone)); [ | reflexivity ].
  rewrite Ha.
  assert (exists callId, py_get call_data "callId" JNull = Ret callId)
    as [callId Hc].
  { destruct call_data; try discriminate. simpl. eauto. }
  unfold build_call_record, bind, lift, get_store. rewrite Hc. simpl.
  destruct (assoc "summary" kv) eqn:Es; [ | reflexivity ].
  destruct (assoc "urgency" kv) eqn:Eu; [ | reflexivity ].
  destruct (assoc "category" kv) eqn:Ec; [ | reflexivity ].
  destruct Hmiss as [H | [H | H]]; discriminate.
Qed.

(** *** Concurrent webhook requests *)

Lemma count_inserted_insert ts (i : nat) t t' :
  ts !! i = Some t ->
  (count_inserted (<[i := t']> ts) + (if inserted t then 1 else 0)
   = count_inserted ts + (if inserted t' then 1 else 0))%nat.
Proof.
  revert i. induction ts as [|t0 ts IH]; intros [|i] Hi; simpl in *;
    try discriminate.
  - injection Hi as ->. lia.
  - specialize (IH i Hi). lia.
Qed.

Lemma count_inserted_all ts :
  List.Forall (fun t => t = Finished (Ret status_success)) ts ->
  count_inserted ts = length ts.
Proof.
  induction 1 as [|t ts -> _ IH]; simpl; [reflexivity | ].
  rewrite IH. reflexivity.
Qed.

Lemma tracks_insert requests ts (i : nat) t' :
  Forall2 tracks requests ts ->
  (forall request, requests !! i = Some request -> tracks request t') ->
  Forall2 tracks requests (<[i := t']> ts).
Proof.
  intros H. revert i. induction H as [|rq t rqs ts Hrt Hrest IH]; intros i Ht'.
  - constructor.
  - destruct i as [|i]; simpl.
    + constructor; [apply Ht'; reflexivity | assumption].
    + constructor; [assumption | ]. apply IH. intros rq' Hrq'.
      apply Ht'. exact Hrq'.
Qed.

Lemma tracks_arrive requests :
  Forall2 tracks requests (map arrive requests).
Proof.
  induction requests as [|[w data] requests IH]; simpl; constructor; auto.
  reflexivity.
Qed.

Lemma count_inserted_arrive requests :
  count_inserted (map arrive requests) = 0%nat.
Proof. induction requests as [|rq requests IH]; simpl; auto. Qed.

Lemma count_finished_insert ts (i : nat) t t' :
  ts !! i = Some t ->
  (count_finished (<[i := t']> ts) + (if finished t then 1 else 0)
   = count_finished ts + (if finished t' then 1 else 0))%nat.
Proof.
  revert i. induction ts as [|t0 ts IH]; intros [|i] Hi; simpl in *;
    try discriminate.
  - injection Hi as ->. lia.
  - specialize (IH i Hi). lia.
Qed.

Lemma count_finished_all ts :
  List.Forall (fun t => t = Finished (Ret status_success)) ts ->
  count_finished ts = length ts.
Proof.
  induction 1 as [|t ts -> _ IH]; simpl; [reflexivity | ].
  rewrite IH. reflexivity.
Qed.

Lemma count_finished_arrive requests :
  count_finished (map arrive requests) = 0%nat.
Proof. induction requests as [|rq requests IH]; simpl; auto. Qed.

(** One uninterrupted run of the handler on a payload without call id
    keeps the numbering; it stores a record when it answers "success", and
    one record at most. *)
Lemma webhook_keeps_numbering w data st :
  no_external_id data = true ->
  auto_numbered (calls_database st) ->
  let out := receive_vapi_webhook w data st in
  auto_numbered (calls_database out.2) /\
  (length (calls_database st) + (if inserted (Finished out.1) then 1 else 0)
   <= length (calls_database out.2)
   <= length (calls_database st) + 1)%nat.
Proof.
  intros Hno Hauto.
  destruct (receive_vapi_webhook_cases w data st)
    as [[e He] | [(t & _ & _ & Hs) | Hok]]; simpl.
  - rewrite He. simpl. split; [assumption | lia].
  - rewrite Hs. simpl. split; [assumption | lia].
  - destruct Hok as (call_data & phone & transcript & ai & r & _ & Hcd & _
                     & _ & _ & Hrec & _ & Hout).
    apply build_call_record_ret in Hrec as (callId & Hcid & Hid & _).
    assert (py_truthy callId = false) as Hfalsy.
    { unfold no_external_id, external_id in Hno. rewrite Hcd in Hno.
      simpl in Hno. rewrite Hcid in Hno. apply negb_true_iff. exact Hno. }
    unfold py_or in Hid. rewrite Hfalsy in Hid.
    destruct Hout as [[_ ->] | [_ ->]]; simpl;
      (split; [apply auto_numbered_append; assumption | ]);
      rewrite length_app; simpl; lia.
Qed.

Lemma fire_consistent requests (i : nat) s s' :
  forallb (fun request => no_external_id request.2) requests = true ->
  consistent requests s ->
  fire i s = Some s' ->
  consistent requests s'.
Proof.
  intros Hno (Htr & Hauto & Hlen) Hfire. destruct s as [st ts].
  unfold fire in Hfire. simpl in *.
  destruct (ts !! i) as [[w data|w data|r]|] eqn:Hi; try discriminate;
    injection Hfire as <-;
    destruct (Forall2_lookup_r _ _ _ _ _ Htr Hi) as (rq & Hrq & Hrel);
    simpl in Hrel.
  - repeat split; simpl; try assumption.
    + apply tracks_insert; [assumption | ].
      intros rq' Hrq'. simpl. congruence.
    + pose proof (count_inserted_insert ts i _ (Running w data) Hi) as Hc.
      simpl in Hc. lia.
    + pose proof (count_finished_insert ts i _ (Running w data) Hi) as Hc.
      simpl in Hc. lia.
  - subst rq. assert (no_external_id data = true) as Hd.
    { rewrite forallb_forall in Hno. apply (Hno (w, data)).
      apply list_elem_of_In. eapply list_elem_of_lookup_2. exact Hrq. }
    destruct (webhook_keeps_numbering w data st Hd Hauto) as [Ha Hl].
    pose proof (count_inserted_insert ts i _
                  (Finished (receive_vapi_webhook w data st).1) Hi) as Hc.
    pose proof (count_finished_insert ts i _
                  (Finished (receive_vapi_webhook w data st).1) Hi) as Hf.
    change (inserted (Running w data)) with false in Hc.
    change (finished (Running w data)) with false in Hf.
    change (finished (Finished (receive_vapi_webhook w data st).1))
      with true in Hf.
    cbv iota in Hc, Hf.
    repeat split; simpl; try assumption.
    + apply tracks_insert; [assumption | ]. intros rq' _. exact I.
    + destruct (inserted (Finished (receive_vapi_webhook w data st).1)); lia.
    + lia.
Qed.

Lemma run_consistent requests schedule s s' :
  forallb (fun request => no_external_id request.2) requests = true ->
  consistent requests s ->
  run schedule s = Some s' ->
  consistent requests s'.
Proof.
  intros Hno. revert s. induction schedule as [|i schedule IH]; intros s Hs Hrun;
    simpl in Hrun.
  - injection Hrun as <-. exact Hs.
  - destruct (fire i s) as [s1|] eqn:Hfire; [ | discriminate ].
    apply (IH s1); [ | exact Hrun ].
    eapply fire_consistent; eassumption.
Qed.

Lemma consistent_arrive requests :
  consistent requests (empty_store, map arrive requests).
Proof.
  split; [apply tracks_arrive | split; [reflexivity | ]]. simpl.
  rewrite count_inserted_arrive, count_finished_arrive. lia.
Qed.

(** C10: let any number of webhook requests without call id of their own
    arrive at an empty store, and let their steps interleave in any order;
    once every request has stored its record, the ids in the call store are
    "1", "2", ... up to the number of requests, each of them once. *)
Theorem concurrent_inserts_number_contiguously requests schedule st tasks :
  forallb (fun request => no_external_id request.2) requests = true ->
  run schedule (empty_store, map arrive requests) = Some (st, tasks) ->
  List.Forall (fun t => t = Finished (Ret status_success)) tasks ->
  map CallRecord.id (calls_database st) = auto_ids (length requests) /\
  List.NoDup (map CallRecord.id (calls_database st)).
Proof.
  intros Hno Hrun Hdone.
  destruct (run_consistent _ _ _ _ Hno (consistent_arrive requests) Hrun)
    as (Htr & Hauto & Hlen).
  simpl in *. rewrite Hauto. split; [ | apply auto_ids_NoDup ].
  rewrite (count_inserted_all _ Hdone), (count_finished_all _ Hdone) in Hlen.
  rewrite (Forall2_length _ _ _ Htr). f_equal. lia.
Qed.

(** ** Further properties of the handlers *)

Lemma py_eq_str_false_of_ne (v : json) (s : string) :
  v <> JStr s -> py_eq v (JStr s) = false.
Proof.
  intros Hne. destruct (py_eq v (JStr s)) eqn:E; [ | reflexivity ].
  apply py_eq_str in E. contradiction.
Qed.

(** *** The phone number *)

(** X1: the phone number the handler extracts is never falsy: it is the
    placeholder "Unknown", or the customer's [number], or, when that is
    missing or falsy, the customer's [phoneNumber]. *)
Theorem extract_phone_result data p :
  extract_phone data = Ret p ->
  py_truthy p = true /\
  (p = JStr "Unknown" \/
   exists call customer,
     py_getitem data "call" = Ret call /\
     py_get call "customer" (JObj []) = Ret customer /\
     (py_get customer "number" JNull = Ret p \/
      exists number,
        py_get customer "number" JNull = Ret number /\
        py_truthy number = false /\
        py_get customer "phoneNumber" JNull = Ret p)).
Proof.
  unfold extract_phone.
  destruct (py_contains "call" data) as [[|]|e]; simpl; try discriminate.
  - destruct (py_getitem data "call") as [call|e]; simpl; [ | discriminate ].
    destruct (py_get call "customer" (JObj [])) as [customer|e] eqn:Hc; simpl;
      [ | discriminate ].
    destruct (py_get customer "number" JNull) as [number|e] eqn:Hn; simpl;
      [ | discriminate ].
    destruct (py_truthy number) eqn:Htn.
    + intros [= <-]. split; [exact Htn | ]. right. exists call, customer.
      repeat split; auto.
    + destruct (py_get customer "phoneNumber" JNull) as [pn|e] eqn:Hpn; simpl;
        [ | discriminate ].
      unfold py_or. destruct (py_truthy pn) eqn:Htp; intros [= <-].
      * split; [exact Htp | ]. right. exists call, customer.
        split; [reflexivity | split; [exact Hc | ]]. right. exists number.
        repeat split; auto.
      * split; [reflexivity | left; reflexivity].
  - intros [= <-]. split; [reflexivity | left; reflexivity].
Qed.

(** *** Payloads the handler cannot read *)

Lemma message_type_readable data :
  (exists t, message_type_of data = Ret t) <-> readable data = true.
Proof.
  unfold message_type_of, readable.
  destruct data as [| | | | |payload]; simpl;
    try (split; [intros [t Ht]; discriminate | discriminate]).
  destruct (assoc "message" payload) as [message|]; simpl.
  - destruct message; simpl;
      try (split; [intros [t Ht]; discriminate | discriminate]).
    split; eauto.
  - split; eauto.
Qed.

Lemma message_type_unreadable data :
  readable data = false -> message_type_of data = Raise AttributeError.
Proof.
  unfold message_type_of, readable.
  destruct data as [| | | | |payload]; simpl; try reflexivity.
  destruct (assoc "message" payload) as [message|]; simpl; [ | discriminate ].
  destruct message; simpl; try reflexivity. discriminate.
Qed.

(** X2: the handler can read an event type exactly from the payloads that
    are a dict whose [message], if present, is a dict; on every other
    payload it raises [AttributeError] and leaves both stores as they
    were. *)
Theorem webhook_unreadable_payload w data st :
  ((exists t, message_type_of data = Ret t) <-> readable data = true) /\
  (readable data = false ->
   receive_vapi_webhook w data st = (Raise AttributeError, st)).
Proof.
  split; [apply message_type_readable | ].
  intros H. unfold receive_vapi_webhook, bind, lift.
  rewrite (message_type_unreadable _ H). reflexivity.
Qed.

(** *** The transcript *)

Lemma render_message_not_object m :
  is_object m = false -> render_message m = Raise AttributeError.
Proof. destruct m; simpl; try reflexivity. discriminate. Qed.

Lemma res_map_render_raises ms :
  forallb is_object ms = false ->
  res_map render_message ms = Raise AttributeError.
Proof.
  induction ms as [|m ms IH]; simpl; [discriminate | ].
  destruct (is_object m) eqn:Hm; simpl.
  - intros Hms. destruct m; try discriminate.
    rewrite render_message_object. simpl. rewrite (IH Hms). reflexivity.
  - intros _. rewrite (render_message_not_object _ Hm). reflexivity.
Qed.

(** X3: on a message dict the transcript is built unless the transcript is
    a list that holds something that is not a dict; then, and only then,
    building it raises, and what it raises is [AttributeError]. *)
Theorem build_transcript_raises_iff message e :
  build_transcript (JObj message) = Raise e <->
  e = AttributeError /\ transcript_ok message = false.
Proof.
  unfold build_transcript, transcript_ok. simpl.
  destruct (assoc "transcript" message) as [raw|];
    [ | split; [discriminate | intros [_ H]; discriminate] ].
  destruct raw as [| | | |ms|];
    try (split; [discriminate | intros [_ H]; discriminate]).
  destruct (forallb is_object ms) eqn:Hms.
  - rewrite (res_map_render_objects _ Hms). simpl.
    split; [discriminate | intros [_ H]; discriminate].
  - rewrite (res_map_render_raises _ Hms). simpl.
    split; [intros [= <-]; auto | intros [-> _]; reflexivity].
Qed.

(** *** When the handler completes, and what it changes *)

Lemma extract_phone_customer_ok payload p :
  extract_phone (JObj payload) = Ret p -> customer_ok payload = true.
Proof.
  unfold extract_phone, customer_ok. simpl.
  destruct (assoc "call" payload) as [call|]; [ | reflexivity ].
  destruct call as [| | | | |call]; simpl; try discriminate.
  destruct (assoc "customer" call) as [customer|]; [ | reflexivity ].
  destruct customer; simpl; try discriminate. reflexivity.
Qed.

Lemma build_transcript_transcript_ok message transcript :
  build_transcript (JObj message) = Ret transcript ->
  transcript_ok message = true.
Proof.
  intros H. destruct (transcript_ok message) eqn:Hok; [reflexivity | ].
  assert (build_transcript (JObj message) = Raise AttributeError) as Hr
    by (apply build_transcript_raises_iff; auto).
  congruence.
Qed.

Lemma message_type_recognized data :
  message_type_of data = Ret (JStr "end-of-call-report") ->
  exists payload message,
    data = JObj payload /\ assoc "message" payload = Some (JObj message).
Proof.
  unfold message_type_of.
  destruct data as [| | | | |payload]; simpl; try discriminate.
  destruct (assoc "message" payload) as [message|] eqn:Hm; simpl;
    [ | discriminate ].
  destruct message as [| | | | |message]; simpl; try discriminate.
  intros _. exists payload, message. split; [reflexivity | exact Hm].
Qed.

(** X4: on an end-of-call payload the handler answers "success" and
    stores a record exactly when the payload has the expected shape, the
    classification of its transcript has the fields [summary], [urgency]
    and [category], and standard output takes the two lines the handler
    prints: the one with the phone number and the one with the urgency and
    the category. *)
Theorem webhook_completes_iff w data st :
  message_type_of data = Ret (JStr "end-of-call-report") ->
  (exists r,
     receive_vapi_webhook w data st = (Ret status_success, append_to_calls r st))
  <->
  (well_formed_report data = true /\
   exists call_data phone transcript ai urgency category,
     py_get data "message" (JObj []) = Ret call_data /\
     extract_phone data = Ret phone /\
     printable (analyzing_line phone) = true /\
     build_transcript call_data = Ret transcript /\
     analyze_with_ai w transcript = Ret ai /\
     complete_analysis ai = true /\
     py_getitem ai "urgency" = Ret urgency /\
     py_getitem ai "category" = Ret category /\
     printable (saved_line urgency category) = true).
Proof.
  intros Htype.
  destruct (message_type_recognized _ Htype) as (payload & message & -> & Hm).
  split.
  - intros [r0 Hrun].
    destruct (receive_vapi_webhook_ret _ _ _ _ _ Hrun)
      as [(t & _ & _ & Hs & _) | Hok]; [discriminate | ].
    destruct Hok as (call_data & phone & transcript & ai & r & _ & Hcd & Hp
                     & Hb & Ha & Hrec & Hp1 & Hp2 & _).
    simpl in Hcd. rewrite Hm in Hcd. injection Hcd as <-.
    apply build_call_record_ret in Hrec
      as (callId & _ & _ & _ & _ & Hs & Hu & Hc & _).
    split.
    + simpl. rewrite Hm.
      rewrite (build_transcript_transcript_ok _ _ Hb).
      rewrite (extract_phone_customer_ok _ _ Hp). reflexivity.
    + exists (JObj message), phone, transcript, ai,
        (CallRecord.urgency r), (CallRecord.category r).
      split; [simpl; rewrite Hm; reflexivity | ].
      do 4 (split; [assumption | ]).
      split; [ | split; [exact Hu | split; [exact Hc | exact Hp2]]].
      unfold complete_analysis.
      assert (has_field ai "summary" = true) as ->
        by (apply has_field_getitem; eauto).
      assert (has_field ai "urgency" = true) as ->
        by (apply has_field_getitem; eauto).
      apply has_field_getitem; eauto.
  - intros (Hwf & call_data & phone & transcript & ai & urgency & category
            & Hcd & Hp & Hp1 & Hb & Ha & Hai & Hu & Hc & Hp2).
    simpl in Hcd. rewrite Hm in Hcd. injection Hcd as <-.
    destruct (build_call_record_returns w message phone transcript ai st Hai)
      as [r Hr].
    exists r.
    rewrite (webhook_run w _ st (JObj message) phone transcript ai r);
      try assumption; [ | simpl; rewrite Hm; reflexivity ].
    apply build_call_record_ret in Hr
      as (callId & _ & _ & _ & _ & _ & Hu' & Hc' & _).
    rewrite Hu in Hu'. rewrite Hc in Hc'.
    injection Hu' as <-. injection Hc' as <-.
    rewrite Hp2. reflexivity.
Qed.


(** *** From the service reply to the stored record *)

Lemma webhook_with_analysis w data st message phone transcript ai :
  message_type_of data = Ret (JStr "end-of-call-report") ->
  py_get data "message" (JObj []) = Ret (JObj message) ->
  extract_phone data = Ret phone ->
  build_transcript (JObj message) = Ret transcript ->
  printable (analyzing_line phone) = true ->
  analyze_with_ai w transcript = Ret ai ->
  complete_analysis ai = true ->
  exists r,
    receive_vapi_webhook w data st
    = (if printable (saved_line (CallRecord.urgency r) (CallRecord.category r))
       then Ret status_success else Raise UnicodeEncodeError,
       append_to_calls r st) /\
    CallRecord.phone r = phone /\
    CallRecord.transcript r = transcript /\
    py_getitem ai "summary" = Ret (CallRecord.summary r) /\
    py_getitem ai "urgency" = Ret (CallRecord.urgency r) /\
    py_getitem ai "category" = Ret (CallRecord.category r) /\
    py_get (JObj message) "duration" (JInt 0) = Ret (CallRecord.duration r) /\
    CallRecord.timestamp r = datetime_now w.
Proof.
  intros Htype Hm Hp Hb Hp1 Ha Hai.
  destruct (build_call_record_returns w message phone transcript ai st Hai)
    as [r Hr].
  exists r. split.
  - apply (webhook_run w data st (JObj message) phone transcript ai r);
      assumption.
  - apply build_call_record_ret in Hr
      as (callId & _ & _ & Hph & Htr & Hs & Hu & Hc & Hd & Hts & _).
    repeat split; assumption.
Qed.

(** X6: with a credential configured, when the service replies with a
    text that parses to a value with the three fields, and standard output
    takes the two lines the handler prints, the handler stores the record
    with exactly those field values, whatever they are, beside the
    extracted phone number, the normalized transcript, the payload's
    duration (0 if absent) and the time of the request. *)
Theorem webhook_stores_service_reply
    w data st message phone transcript reply ai urgency category :
  message_type_of data = Ret (JStr "end-of-call-report") ->
  py_get data "message" (JObj []) = Ret (JObj message) ->
  extract_phone data = Ret phone ->
  build_transcript (JObj message) = Ret transcript ->
  printable (analyzing_line phone) = true ->
  key_missing GROQ_API_KEY = false ->
  chat_completions_create w ("Transcript: " +:+ transcript) = Ret (Some reply) ->
  json_loads reply = Ret ai ->
  complete_analysis ai = true ->
  py_getitem ai "urgency" = Ret urgency ->
  py_getitem ai "category" = Ret category ->
  printable (saved_line urgency category) = true ->
  exists r,
    receive_vapi_webhook w data st = (Ret status_success, append_to_calls r st) /\
    CallRecord.phone r = phone /\
    CallRecord.transcript r = transcript /\
    py_getitem ai "summary" = Ret (CallRecord.summary r) /\
    CallRecord.urgency r = urgency /\
    CallRecord.category r = category /\
    py_get (JObj message) "duration" (JInt 0) = Ret (CallRecord.duration r) /\
    CallRecord.timestamp r = datetime_now w.
Proof.
  intros Htype Hm Hp Hb Hp1 Hkey Hreply Hparse Hai Hu Hc Hp2.
  assert (analyze_with_ai w transcript = Ret ai) as Ha.
  { unfold analyze_with_ai. rewrite Hkey, Hreply. simpl. rewrite Hparse.
    reflexivity. }
  destruct (webhook_with_analysis w data st message phone transcript ai
              Htype Hm Hp Hb Hp1 Ha Hai)
    as (r & Hrun & Hph & Htr & Hs & Hu' & Hc' & Hd & Hts).
  rewrite Hu in Hu'. rewrite Hc in Hc'.
  injection Hu' as Hu'. injection Hc' as Hc'.
  exists r. rewrite <- Hu', <- Hc', Hp2 in Hrun.
  repeat split; auto.
Qed.


(** *** More on callbacks and appointments *)

Lemma mark_matching_other target cs (i : nat) c :
  cs !! i = Some c ->
  py_eq (CallRecord.id c) target = false ->
  mark_matching target cs !! i = Some c.
Proof.
  intros Hi Hne. rewrite mark_matching_lookup, Hi. simpl. rewrite Hne.
  reflexivity.
Qed.

(** X8: [mark_callback] changes no record but those whose id is the
    string it is given: every other record, one with a number as id
    included, stays as it is, and when no record has that id the whole
    store is unchanged. *)
Theorem mark_callback_touches_only_matches call_id st :
  (forall (i : nat) c,
     calls_database st !! i = Some c ->
     CallRecord.id c <> JStr call_id ->
     calls_database (mark_callback call_id st).2 !! i = Some c) /\
  (List.Forall (fun c => CallRecord.id c <> JStr call_id) (calls_database st) ->
   mark_callback call_id st = (Ret status_updated, st)).
Proof.
  split.
  - intros i c Hi Hne. simpl. apply mark_matching_other; [exact Hi | ].
    apply py_eq_str_false_of_ne. exact Hne.
  - intros Hall. unfold mark_callback. unfold_m.
    rewrite mark_matching_no_match.
    + destruct st; reflexivity.
    + eapply List.Forall_impl; [ | exact Hall ].
      intros c Hc. apply py_eq_str_false_of_ne. exact Hc.
Qed.

(** X9: what [create_appointment] raises on a request without [phone],
    [date] or [time]: [KeyError] when the body is a dict, [TypeError] when
    it is any other JSON value; both stores stay as they were. *)
Theorem create_appointment_error_kind data st :
  has_field data "phone" && has_field data "date" && has_field data "time"
  = false ->
  create_appointment data st
  = (Raise (if is_object data then KeyError else TypeError), st).
Proof.
  intros H. unfold create_appointment, build_appointment.
  unfold bind, lift, get_store, ret.
  destruct data as [| | | | |kv]; simpl; try reflexivity.
  simpl in H.
  destruct (assoc "phone" kv); simpl; [ | reflexivity ].
  destruct (assoc "date" kv); simpl; [ | reflexivity ].
  destruct (assoc "time" kv); simpl; [ | reflexivity ].
  discriminate.
Qed.

Lemma mark_matching_commute a b cs :
  mark_matching a (mark_matching b cs) = mark_matching b (mark_matching a cs).
Proof.
  induction cs as [|c cs IH]; simpl; [reflexivity | ].
  rewrite IH. f_equal.
  destruct (py_eq (CallRecord.id c) a) eqn:Ea,
           (py_eq (CallRecord.id c) b) eqn:Eb; simpl;
    rewrite ?Ea, ?Eb; reflexivity.
Qed.

(** X10: callbacks for two ids can be marked in either order: the store
    is the same afterwards. *)
Theorem mark_callback_commute a b st :
  (mark_callback b (mark_callback a st).2).2
  = (mark_callback a (mark_callback b st).2).2.
Proof.
  unfold mark_callback. unfold_m. rewrite mark_matching_commute. reflexivity.
Qed.

(** *** What every sequence of requests keeps *)

Lemma call_kept_refl c : call_kept c c.
Proof. repeat split; auto. Qed.

Lemma call_kept_trans c1 c2 c3 :
  call_kept c1 c2 -> call_kept c2 c3 -> call_kept c1 c3.
Proof.
  unfold call_kept, same_call. intros [H12 B12] [H23 B23].
  split; [ | auto ].
  destruct H12 as (? & ? & ? & ? & ? & ? & ? & ?).
  destruct H23 as (? & ? & ? & ? & ? & ? & ? & ?).
  repeat split; congruence.
Qed.

Lemma call_kept_set_called_back c : call_kept c (CallRecord.set_called_back c).
Proof. repeat split; auto. Qed.

Lemma extends_refl st : extends st st.
Proof.
  split.
  - intros i c Hi. exists c. split; [exact Hi | apply call_kept_refl].
  - exists []. symmetry. apply app_nil_r.
Qed.

Lemma extends_trans st1 st2 st3 :
  extends st1 st2 -> extends st2 st3 -> extends st1 st3.
Proof.
  intros [Hc12 [m12 Ha12]] [Hc23 [m23 Ha23]]. split.
  - intros i c1 Hi. destruct (Hc12 i c1 Hi) as (c2 & Hi2 & Hk12).
    destruct (Hc23 i c2 Hi2) as (c3 & Hi3 & Hk23).
    exists c3. split; [exact Hi3 | eapply call_kept_trans; eassumption].
  - exists (m12 ++ m23). rewrite Ha23, Ha12, app_assoc. reflexivity.
Qed.

Lemma extends_mark target st more :
  extends st
    {| calls_database := mark_matching target (calls_database st);
       appointments_database := appointments_database st ++ more |}.
Proof.
  split; simpl.
  - intros i c Hi. rewrite mark_matching_lookup, Hi. simpl.
    eexists. split; [reflexivity | ].
    destruct (py_eq (CallRecord.id c) target);
      [apply call_kept_set_called_back | apply call_kept_refl].
  - exists more. reflexivity.
Qed.

Lemma create_appointment_store data st :
  (create_appointment data st).2 = st \/
  exists appt target,
    py_get data "call_id" JNull = Ret target /\
    Appointment.id appt = pretty (length (appointments_database st) + 1)%nat /\
    (create_appointment data st).2 = appointment_made appt target st.
Proof.
  destruct (has_field data "phone" && has_field data "date"
            && has_field data "time") eqn:Hf.
  - right. destruct (build_appointment_ret data st Hf)
      as (phone & date & time & notes & _ & _ & _ & _ & Hb).
    destruct (create_appointment_after_build _ _ _ Hb) as (target & Ht & Hc).
    match type of Hc with
    | _ = (Ret (StatusAppointment _ ?a), _) => exists a, target
    end.
    split; [exact Ht | ]. rewrite Hc. split; reflexivity.
  - left. destruct (build_appointment_raise data st Hf) as [e He].
    unfold create_appointment, bind. rewrite He. reflexivity.
Qed.

Lemma serve_extends request st : extends st (serve request st).2.
Proof.
  destruct request as [w data| | |data|call_id].
  - assert ((serve (PostWebhook w data) st).2
            = (receive_vapi_webhook w data st).2) as ->.
    { unfold serve, bind, ret.
      destruct (receive_vapi_webhook w data st) as [[r|e] st']; reflexivity. }
    destruct (webhook_store w data st) as [-> | (r & callId & _ & _ & ->)];
      [apply extends_refl | ].
    split; simpl.
    + intros i c Hi. exists c. split; [ | apply call_kept_refl ].
      apply lookup_app_l_Some. exact Hi.
    + exists []. symmetry. apply app_nil_r.
  - apply extends_refl.
  - apply extends_refl.
  - assert ((serve (PostAppointment data) st).2
            = (create_appointment data st).2) as ->.
    { unfold serve, bind, ret.
      destruct (create_appointment data st) as [[r|e] st']; reflexivity. }
    destruct (create_appointment_store data st)
      as [-> | (appt & target & _ & _ & ->)];
      [apply extends_refl | apply extends_mark].
  - replace (serve (PostCallback call_id) st).2
      with {| calls_database :=
                mark_matching (JStr call_id) (calls_database st);
              appointments_database := appointments_database st ++ [] |}.
    + apply extends_mark.
    + rewrite app_nil_r. reflexivity.
Qed.

(** X11: no sequence of requests removes, moves or rewrites a stored
    record: every call record is still at its position with the same id,
    phone, transcript, triage, duration and timestamp, its [called_back]
    still set if it was set, and the appointments of before are the first
    appointments of after. *)
Theorem serve_all_extends requests st :
  extends st (serve_all requests st).
Proof.
  revert st. induction requests as [|request requests IH]; intros st; simpl.
  - apply extends_refl.
  - eapply extends_trans; [apply serve_extends | apply IH].
Qed.

Lemma serve_store request st :
  (serve request st).2
  = match request with
    | PostWebhook w data => (receive_vapi_webhook w data st).2
    | PostAppointment data => (create_appointment data st).2
    | PostCallback call_id => (mark_callback call_id st).2
    | GetCalls | GetAppointments => st
    end.
Proof.
  destruct request as [w data| | |data|call_id]; try reflexivity;
    unfold serve, bind, ret.
  - destruct (receive_vapi_webhook w data st) as [[r|e] st']; reflexivity.
  - destruct (create_appointment data st) as [[r|e] st']; reflexivity.
Qed.

Lemma appointment_ids_append (apps : list Appointment.t) a :
  map Appointment.id apps = appointment_ids (length apps) ->
  Appointment.id a = pretty (length apps + 1)%nat ->
  map Appointment.id (apps ++ [a]) = appointment_ids (length (apps ++ [a])).
Proof.
  unfold appointment_ids. intros Hids Hid.
  rewrite map_app, length_app, seq_app, map_app, Hids. simpl.
  rewrite Hid. do 3 f_equal. lia.
Qed.

Lemma appointment_ids_NoDup n : List.NoDup (appointment_ids n).
Proof.
  unfold appointment_ids.
  apply Finite.Injective_map_NoDup; [ | apply List.seq_NoDup ].
  intros i j Heq. apply pretty_nat_inj in Heq. exact Heq.
Qed.

Lemma serve_appointment_ids request st :
  map Appointment.id (appointments_database st)
  = appointment_ids (length (appointments_database st)) ->
  map Appointment.id (appointments_database (serve request st).2)
  = appointment_ids (length (appointments_database (serve request st).2)).
Proof.
  intros Hids. rewrite serve_store.
  destruct request as [w data| | |data|call_id]; try exact Hids.
  - destruct (webhook_store w data st) as [-> | (r & callId & _ & _ & ->)];
      exact Hids.
  - destruct (create_appointment_store data st)
      as [-> | (appt & target & _ & Hid & ->)]; [exact Hids | ].
    simpl. apply appointment_ids_append; assumption.
Qed.

(** X12: appointment ids, unlike call ids, never repeat: in every store
    that requests lead to from the empty one, the appointments carry the
    ids "1", "2", ... in the order they were made. *)
Theorem appointment_ids_numbered st :
  reachable st ->
  map Appointment.id (appointments_database st)
  = appointment_ids (length (appointments_database st)) /\
  List.NoDup (map Appointment.id (appointments_database st)).
Proof.
  intros [requests ->].
  assert (forall st0,
            map Appointment.id (appointments_database st0)
            = appointment_ids (length (appointments_database st0)) ->
            map Appointment.id (appointments_database (serve_all requests st0))
            = appointment_ids
                (length (appointments_database (serve_all requests st0))))
    as Hinv.
  { induction requests as [|request requests IH]; intros st0 H0; simpl.
    - exact H0.
    - apply IH, serve_appointment_ids, H0. }
  specialize (Hinv empty_store eq_refl).
  split; [exact Hinv | ]. rewrite Hinv. apply appointment_ids_NoDup.
Qed.

(** *** Call ids are never falsy *)

Lemma pretty_N_go_nonempty (x : N) (s : string) :
  s <> "" -> pretty_N_go x s <> "".
Proof.
  revert s. induction (N.lt_wf_0 x) as [x _ IH]; intros s Hs.
  destruct (decide (x = 0)%N) as [->|Hx].
  - rewrite pretty_N_go_0. exact Hs.
  - rewrite pretty_N_go_step by lia.
    apply IH; [apply N.div_lt; lia | discriminate].
Qed.

Lemma pretty_nat_nonempty (n : nat) : pretty n <> "".
Proof.
  unfold pretty, pretty_nat, pretty, pretty_N.
  destruct (decide (N.of_nat n = 0)%N) as [_|Hn]; [discriminate | ].
  rewrite pretty_N_go_step by lia.
  apply pretty_N_go_nonempty. discriminate.
Qed.

Lemma py_eq_truthy a b : py_eq a b = true -> py_truthy a = py_truthy b.
Proof.
  destruct a as [|x|n|s|xs|xs], b as [|y|m|t|ys|ys]; simpl;
    try discriminate; try reflexivity.
  - destruct x, y; simpl; intros H; congruence.
  - destruct x; intros H; apply Z.eqb_eq in H; subst m; reflexivity.
  - destruct y; intros H; apply Z.eqb_eq in H; subst n; reflexivity.
  - intros H. apply Z.eqb_eq in H. subst m. reflexivity.
  - intros H. apply String.eqb_eq in H. subst t. reflexivity.
  - destruct xs, ys; simpl; congruence.
  - destruct xs, ys; simpl; try discriminate; reflexivity.
Qed.

Lemma mark_matching_ids target cs :
  map CallRecord.id (mark_matching target cs) = map CallRecord.id cs.
Proof.
  induction cs as [|c cs IH]; simpl; [reflexivity | ].
  rewrite IH. destruct (py_eq (CallRecord.id c) target); reflexivity.
Qed.

Lemma serve_ids_truthy request st :
  List.Forall (fun v => py_truthy v = true)
    (map CallRecord.id (calls_database st)) ->
  List.Forall (fun v => py_truthy v = true)
    (map CallRecord.id (calls_database (serve request st).2)).
Proof.
  intros Hids. rewrite serve_store.
  destruct request as [w data| | |data|call_id]; try exact Hids.
  - destruct (webhook_store w data st) as [-> | (r & callId & _ & Hid & ->)];
      [exact Hids | ].
    simpl. rewrite map_app. apply List.Forall_app. split; [exact Hids | ].
    constructor; [ | constructor ]. rewrite Hid. unfold py_or.
    destruct (py_truthy callId) eqn:Hc; [exact Hc | ]. simpl.
    apply negb_true_iff, String.eqb_neq, pretty_nat_nonempty.
  - destruct (create_appointment_store data st)
      as [-> | (appt & target & _ & _ & ->)]; [exact Hids | ].
    simpl. rewrite mark_matching_ids. exact Hids.
  - simpl. rewrite mark_matching_ids. exact Hids.
Qed.

(** X13: in every store that requests lead to from the empty one, no call
    record has a falsy id (None, "", 0, ...); so an appointment request
    whose [call_id] is absent, null or otherwise falsy marks no call: the
    call records stay exactly as they were. *)
Theorem appointment_without_call_id_marks_nothing st data target :
  reachable st ->
  py_get data "call_id" JNull = Ret target ->
  py_truthy target = false ->
  List.Forall (fun c => py_truthy (CallRecord.id c) = true) (calls_database st) /\
  calls_database (create_appointment data st).2 = calls_database st.
Proof.
  intros [requests ->] Ht Hfalsy.
  assert (forall st0,
            List.Forall (fun v => py_truthy v = true)
              (map CallRecord.id (calls_database st0)) ->
            List.Forall (fun v => py_truthy v = true)
              (map CallRecord.id (calls_database (serve_all requests st0))))
    as Hinv.
  { induction requests as [|request requests IH]; intros st0 H0; simpl.
    - exact H0.
    - apply IH, serve_ids_truthy, H0. }
  specialize (Hinv empty_store (List.Forall_nil _)).
  rewrite List.Forall_map in Hinv. split; [exact Hinv | ].
  destruct (create_appointment_store data (serve_all requests empty_store))
    as [-> | (appt & target' & Ht' & _ & ->)]; [reflexivity | ].
  rewrite Ht in Ht'. injection Ht' as <-. simpl.
  apply mark_matching_no_match.
  eapply List.Forall_impl; [ | exact Hinv ].
  intros c Hc. simpl in Hc.
  destruct (py_eq (CallRecord.id c) target) eqn:E; [ | reflexivity ].
  apply py_eq_truthy in E. congruence.
Qed.

(** *** Numbering of call ids *)

Lemma serve_auto_numbered request st :
  match request with
  | PostWebhook _ data => no_external_id data
  | _ => true
  end = true ->
  auto_numbered (calls_database st) ->
  auto_numbered (calls_database (serve request st).2).
Proof.
  intros Hno Hauto. rewrite serve_store.
  destruct request as [w data| | |data|call_id]; try exact Hauto.
  - apply (webhook_keeps_numbering w data st Hno Hauto).
  - destruct (create_appointment_store data st)
      as [-> | (appt & target & _ & _ & ->)]; [exact Hauto | ].
    unfold auto_numbered. simpl.
    rewrite mark_matching_ids, mark_matching_length. exact Hauto.
  - unfold auto_numbered. simpl.
    rewrite mark_matching_ids, mark_matching_length. exact Hauto.
Qed.

(** X14: as long as no webhook payload brings a call id of its own, call
    ids do not repeat: after any sequence of requests from the empty store,
    whatever their kind and whether they fail or not, the call records
    carry the ids "1", "2", ... in the order they were stored. *)
Theorem call_ids_numbered requests :
  without_external_ids requests = true ->
  auto_numbered (calls_database (serve_all requests empty_store)) /\
  List.NoDup (map CallRecord.id (calls_database (serve_all requests empty_store))).
Proof.
  intros Hno.
  assert (forall st0,
            auto_numbered (calls_database st0) ->
            auto_numbered (calls_database (serve_all requests st0))) as Hinv.
  { induction requests as [|request requests IH]; intros st0 H0; simpl.
    - exact H0.
    - simpl in Hno. apply andb_prop in Hno as [Hr Hrs].
      apply (IH Hrs), serve_auto_numbered; assumption. }
  specialize (Hinv empty_store eq_refl).
  split; [exact Hinv | ]. rewrite Hinv. apply auto_ids_NoDup.
Qed.

(** X15: at every moment of every schedule of concurrent webhook requests
    without call ids of their own, also while some requests are still
    waiting and when some have failed or were skipped, the ids in the call
    store are "1", "2", ... without a gap; there is a record for every
    request that answered "success", and there are no more records than
    requests that have run. *)
Theorem schedule_keeps_numbering requests schedule st tasks :
  forallb (fun request => no_external_id request.2) requests = true ->
  run schedule (empty_store, map arrive requests) = Some (st, tasks) ->
  map CallRecord.id (calls_database st)
  = auto_ids (length (calls_database st)) /\
  (count_inserted tasks <= length (calls_database st) <= count_finished tasks)%nat /\
  length tasks = length requests.
Proof.
  intros Hno Hrun.
  destruct (run_consistent _ _ _ _ Hno (consistent_arrive requests) Hrun)
    as (Htr & Hauto & Hlen).
  simpl in *. split; [exact Hauto | split; [exact Hlen | ]].
  symmetry. apply (Forall2_length _ _ _ Htr).
Qed.

(** *** Listing what was stored *)

(** X16: what a handler has stored is what the listing routes return next:
    after a webhook request answered "success", [get_calls] returns the
    call records of before followed by one new record; after an appointment
    request, [get_appointments] returns the appointments of before followed
    by the appointment that was returned to the caller.  Listing changes
    neither store. *)
Theorem listing_after_storing st :
  (forall w data st',
     receive_vapi_webhook w data st = (Ret status_success, st') ->
     exists r, get_calls st' = (Ret (calls_database st ++ [r]), st')) /\
  (forall data status appt st',
     create_appointment data st = (Ret (StatusAppointment status appt), st') ->
     get_appointments st'
     = (Ret (appointments_database st ++ [appt]), st')).
Proof.
  split.
  - intros w data st' Hrun.
    destruct (receive_vapi_webhook_ret _ _ _ _ _ Hrun)
      as [(t & _ & _ & Hs & _) | (? & ? & ? & ? & r & Hok)];
      [discriminate | ].
    destruct Hok as (_ & _ & _ & _ & _ & _ & _ & _ & _ & ->).
    exists r. reflexivity.
  - intros data status appt st' Hrun.
    destruct (has_field data "phone" && has_field data "date"
              && has_field data "time") eqn:Hf.
    + destruct (build_appointment_ret data st Hf)
        as (phone & date & time & notes & _ & _ & _ & _ & Hb).
      destruct (create_appointment_after_build _ _ _ Hb) as (target & _ & Hc).
      rewrite Hc in Hrun. injection Hrun as _ <- <-. reflexivity.
    + destruct (build_appointment_raise data st Hf) as [e He].
      unfold create_appointment, bind in Hrun. rewrite He in Hrun.
      discriminate.
Qed.

End Service.

(** ** The handlers on the sample inputs *)

Local Abbreviation sample_webhook :=
  (receive_vapi_webhook Samples.repr_str Samples.json_loads Samples.api_key
     Samples.printable).
Local Abbreviation sample_appointment := (create_appointment Samples.repr_str).

(** The primitives on small inputs. *)

Example py_eq_bool_int : py_eq (JBool true) (JInt 1) = true.
Proof. reflexivity. Qed.

Example py_eq_str_int : py_eq (JStr "1") (JInt 1) = false.
Proof. reflexivity. Qed.

Example py_eq_dict_order :
  py_eq (JObj [("a", JInt 1); ("b", JNull)]) (JObj [("b", JNull); ("a", JInt 1)])
  = true.
Proof. reflexivity. Qed.

Example py_or_falsy : py_or (JStr "") (JStr "1") = JStr "1".
Proof. reflexivity. Qed.

Example py_str_nested :
  py_str Samples.repr_str (JObj [("a", JList [JInt 1; JStr "x"; JNull])])
  = "{'a': [1, 'x', None]}".
Proof. vm_compute. reflexivity. Qed.

Example extract_phone_number :
  extract_phone
    (JObj [("call", JObj [("customer", JObj [("number", JStr "+15550100")])])])
  = Ret (JStr "+15550100").
Proof. reflexivity. Qed.

Example extract_phone_phoneNumber :
  extract_phone
    (JObj [("call",
            JObj [("customer",
                   JObj [("number", JStr ""); ("phoneNumber", JStr "555")])])])
  = Ret (JStr "555").
Proof. reflexivity. Qed.

Example extract_phone_unknown :
  extract_phone (JObj [("call", JObj [])]) = Ret (JStr "Unknown").
Proof. reflexivity. Qed.

(** A payload whose [message] is [null] has no event type to read: the
    handler raises, and stores nothing. *)
Example webhook_null_message :
  sample_webhook Samples.world_ok (JObj [("message", JNull)]) empty_store
  = (Raise AttributeError, empty_store).
Proof. reflexivity. Qed.

(** A payload without [message] is skipped. *)
Example webhook_empty_payload :
  sample_webhook Samples.world_ok (JObj []) empty_store
  = (Ret status_skipped, empty_store).
Proof. reflexivity. Qed.

(** With the service down the record is stored with the fallback triage. *)
Example webhook_service_down :
  map CallRecord.summary
    (calls_database
       (sample_webhook Samples.world_down Samples.payload_plain empty_store).2)
  = [JStr "Analysis failed"].
Proof. vm_compute. reflexivity. Qed.

(** A phone number that standard output cannot encode: the handler
    raises at its first [print] and stores nothing. *)
Example webhook_surrogate_phone :
  sample_webhook Samples.world_ok Samples.payload_surrogate_phone empty_store
  = (Raise UnicodeEncodeError, empty_store).
Proof. vm_compute. reflexivity. Qed.

(** A category that standard output cannot encode: the handler raises at
    its last [print], after the record is stored. *)
Example webhook_surrogate_category :
  (sample_webhook Samples.world_surrogate Samples.payload_plain empty_store).1
  = Raise UnicodeEncodeError /\
  map CallRecord.id
    (calls_database
       (sample_webhook Samples.world_surrogate Samples.payload_plain
          empty_store).2)
  = [JStr "1"].
Proof. vm_compute. split; reflexivity. Qed.

Example webhook_completes_sample :
  exists r,
    receive_vapi_webhook Samples.repr_str Samples.json_loads Samples.api_key
      (fun _ => true) Samples.world_ok Samples.payload_report empty_store
    = (Ret status_success, append_to_calls r empty_store).
Proof.
  apply webhook_completes; try reflexivity.
  intros transcript ai. vm_compute. intros [= <-]. reflexivity.
Qed.

(** C1, as the spec has it, fails: after a call that brought the external
    id "2", the next call without id is stored under "2" as well. *)
Lemma webhook_id_not_unique :
  let st1 :=
    (sample_webhook Samples.world_ok Samples.payload_external_2 empty_store).2 in
  let out := sample_webhook Samples.world_ok Samples.payload_plain st1 in
  message_type_of Samples.payload_plain = Ret (JStr "end-of-call-report") /\
  out.1 = Ret status_success /\
  map CallRecord.id (calls_database st1) = [JStr "2"] /\
  map CallRecord.id (calls_database out.2) = [JStr "2"; JStr "2"] /\
  exists r,
    calls_database out.2 = calls_database st1 ++ [r] /\
    ~ List.Forall (fun c => CallRecord.id c <> CallRecord.id r)
        (calls_database st1).
Proof.
  vm_compute. repeat split. eexists. split; [reflexivity | ].
  intros H. inversion H as [|c cs Hc Hcs]. apply Hc. reflexivity.
Qed.

Lemma webhook_appends_one_record_witness :
  let out := sample_webhook Samples.world_ok Samples.payload_report
               Samples.store_numbered in
  message_type_of Samples.payload_report = Ret (JStr "end-of-call-report") /\
  out = (Ret status_success, out.2) /\
  auto_numbered (calls_database Samples.store_numbered) /\
  exists r,
    calls_database out.2 = calls_database Samples.store_numbered ++ [r] /\
    CallRecord.id r = JStr "3" /\
    CallRecord.called_back r = false /\
    List.Forall (fun c => CallRecord.id c <> CallRecord.id r)
      [Samples.call (JStr "1") false; Samples.call (JStr "2") true].
Proof.
  intros out.
  assert (message_type_of Samples.payload_report
          = Ret (JStr "end-of-call-report")) as Htype by reflexivity.
  assert (out = (Ret status_success, out.2)) as Hrun by (vm_compute; reflexivity).
  assert (auto_numbered (calls_database Samples.store_numbered)) as Hauto
    by reflexivity.
  split; [exact Htype | split; [exact Hrun | split; [exact Hauto | ]]].
  destruct (webhook_appends_one_record Samples.repr_str Samples.json_loads
              Samples.api_key Samples.printable Samples.world_ok
              Samples.payload_report Samples.store_numbered status_success
              out.2 Htype Hrun)
    as (r & callId & _ & Hcalls & _ & Hext & Hid & Hcb & Hfresh).
  vm_compute in Hext. injection Hext as <-.
  exists r. split; [exact Hcalls | split; [exact Hid | split; [exact Hcb | ]]].
  apply Hfresh; [reflexivity | exact Hauto].
Defined.

Lemma webhook_skips_other_events_witness :
  message_type_of Samples.payload_status_update
    <> Ret (JStr "end-of-call-report") /\
  sample_webhook Samples.world_ok Samples.payload_status_update
    Samples.store_duplicates
  = (Ret status_skipped, Samples.store_duplicates).
Proof.
  assert (message_type_of Samples.payload_status_update
            <> Ret (JStr "end-of-call-report")) as Hne
    by (vm_compute; discriminate).
  split; [exact Hne | ].
  destruct (webhook_skips_other_events Samples.repr_str Samples.json_loads
              Samples.api_key Samples.printable Samples.world_ok
              Samples.payload_status_update Samples.store_duplicates Hne)
    as [Hstore Hresp].
  specialize (Hresp (JStr "status-update") eq_refl).
  destruct (sample_webhook Samples.world_ok Samples.payload_status_update
              Samples.store_duplicates) as [resp st'].
  simpl in Hstore, Hresp. subst. reflexivity.
Defined.

(** C3, as the spec has it, fails: the event type of a payload whose
    [message] is [null] is not "end-of-call-report", and the handler does
    not answer "skipped" but raises. *)
Lemma webhook_null_message_not_skipped :
  let payload := JObj [("message", JNull)] in
  message_type_of payload <> Ret (JStr "end-of-call-report") /\
  sample_webhook Samples.world_ok payload Samples.store_duplicates
  = (Raise AttributeError, Samples.store_duplicates) /\
  (sample_webhook Samples.world_ok payload Samples.store_duplicates).1
  <> Ret status_skipped.
Proof.
  vm_compute. split; [discriminate | split; [reflexivity | discriminate]].
Qed.


Lemma create_appointment_rejects_missing_field_witness :
  has_field Samples.appointment_request_no_date "phone"
    && has_field Samples.appointment_request_no_date "date"
    && has_field Samples.appointment_request_no_date "time" = false /\
  exists e,
    sample_appointment Samples.appointment_request_no_date
      Samples.store_duplicates
    = (Raise e, Samples.store_duplicates).
Proof.
  split; [reflexivity | ].
  apply (create_appointment_rejects_missing_field Samples.repr_str
           Samples.appointment_request_no_date Samples.store_duplicates).
  reflexivity.
Defined.


(** C6, the failing input: the service replies with a summary and an
    urgency but no category. *)
Lemma webhook_incomplete_analysis_raises_witness :
  analyze_with_ai Samples.json_loads Samples.api_key Samples.world_incomplete
    "I need a checkup"
  = Ret Samples.incomplete_analysis /\
  assoc "category" [("summary", JStr "Cough"); ("urgency", JStr "ROUTINE")]
  = None /\
  sample_webhook Samples.world_incomplete Samples.payload_plain empty_store
  = (Raise KeyError, empty_store).
Proof.
  split; [reflexivity | split; [reflexivity | ]].
  apply (webhook_incomplete_analysis_raises Samples.repr_str Samples.json_loads
           Samples.api_key Samples.printable Samples.world_incomplete
           Samples.payload_plain
           empty_store
           (JObj [("type", JStr "end-of-call-report");
                  ("transcript", JStr "I need a checkup")])
           (JStr "Unknown") "I need a checkup"
           [("summary", JStr "Cough"); ("urgency", JStr "ROUTINE")]);
    try reflexivity.
  right; right. reflexivity.
Defined.

Lemma create_appointment_cross_reference_witness :
  let request := Samples.appointment_request (JStr "1") in
  has_field request "phone" && has_field request "date"
    && has_field request "time" = true /\
  exists appt st',
    sample_appointment request Samples.store_duplicates
    = (Ret (StatusAppointment "success" appt), st') /\
    appointments_database st' = [appt] /\
    calls_database st'
    = [Samples.call (JStr "7") false; Samples.call (JStr "1") true;
       Samples.call (JStr "7") false].
Proof.
  intros request.
  assert (has_field request "phone" && has_field request "date"
            && has_field request "time" = true) as Hf by reflexivity.
  split; [exact Hf | ].
  destruct (create_appointment_cross_reference Samples.repr_str request
              Samples.store_duplicates Hf)
    as (appt & target & st' & _ & Hrun & Happ & _).
  exists appt, st'. split; [exact Hrun | split; [exact Happ | ]].
  vm_compute in Hrun. injection Hrun as _ <-. reflexivity.
Defined.

Lemma mark_callback_idempotent_witness :
  exists st1,
    mark_callback "7" Samples.store_duplicates = (Ret status_updated, st1) /\
    mark_callback "7" st1 = (Ret status_updated, st1) /\
    calls_database st1
    = [Samples.call (JStr "7") true; Samples.call (JStr "1") false;
       Samples.call (JStr "7") true].
Proof.
  destruct (mark_callback_idempotent "7" Samples.store_duplicates)
    as (st1 & Hone & Htwo & _).
  exists st1. split; [exact Hone | split; [exact Htwo | ]].
  vm_compute in Hone. injection Hone as <-. reflexivity.
Defined.


(** Three requests whose bodies arrive in the order 0, 1, 2 and whose
    handlers run in the order 2, 0, 1. *)
Lemma concurrent_inserts_number_contiguously_witness :
  let requests :=
    [(Samples.world_ok, Samples.payload_plain);
     (Samples.world_down, Samples.payload_report);
     (Samples.world_ok, Samples.payload_plain)] in
  let schedule := [0; 1; 2; 2; 0; 1]%nat in
  forallb (fun request => no_external_id request.2) requests = true /\
  exists st tasks,
    run Samples.repr_str Samples.json_loads Samples.api_key Samples.printable schedule
      (empty_store, map arrive requests) = Some (st, tasks) /\
    List.Forall (fun t => t = Finished (Ret status_success)) tasks /\
    map CallRecord.id (calls_database st) = [JStr "1"; JStr "2"; JStr "3"] /\
    List.NoDup (map CallRecord.id (calls_database st)).
Proof.
  intros requests schedule.
  assert (forallb (fun request => no_external_id request.2) requests = true)
    as Hno by reflexivity.
  split; [exact Hno | ].
  assert (exists st tasks,
            run Samples.repr_str Samples.json_loads Samples.api_key Samples.printable schedule
              (empty_store, map arrive requests) = Some (st, tasks) /\
            List.Forall (fun t => t = Finished (Ret status_success)) tasks)
    as (st & tasks & Hrun & Hdone).
  { vm_compute. eexists _, _. split; [reflexivity | ]. repeat constructor. }
  exists st, tasks. split; [exact Hrun | split; [exact Hdone | ]].
  destruct (concurrent_inserts_number_contiguously Samples.repr_str
              Samples.json_loads Samples.api_key Samples.printable requests schedule st tasks
              Hno Hrun Hdone) as [Hids Hnodup].
  split; [rewrite Hids; reflexivity | exact Hnodup].
Defined.

(** ** The further properties on the sample inputs *)

Local Abbreviation sample_serve_all :=
  (serve_all Samples.repr_str Samples.json_loads Samples.api_key Samples.printable).

Lemma extract_phone_result_witness :
  extract_phone Samples.payload_customer = Ret (JStr "+15550123") /\
  py_truthy (JStr "+15550123") = true.
Proof.
  assert (extract_phone Samples.payload_customer = Ret (JStr "+15550123"))
    as Hp by reflexivity.
  split; [exact Hp | ].
  apply (extract_phone_result Samples.payload_customer (JStr "+15550123") Hp).
Defined.

Lemma webhook_unreadable_payload_witness :
  readable (JList [JStr "end-of-call-report"]) = false /\
  sample_webhook Samples.world_ok (JList [JStr "end-of-call-report"])
    Samples.store_duplicates
  = (Raise AttributeError, Samples.store_duplicates).
Proof.
  split; [reflexivity | ].
  apply (proj2 (webhook_unreadable_payload Samples.repr_str Samples.json_loads
                  Samples.api_key Samples.printable Samples.world_ok
                  (JList [JStr "end-of-call-report"])
                  Samples.store_duplicates)).
  reflexivity.
Defined.

Lemma build_transcript_raises_iff_witness :
  transcript_ok Samples.message_bad_transcript = false /\
  build_transcript Samples.repr_str (JObj Samples.message_bad_transcript)
  = Raise AttributeError.
Proof.
  split; [reflexivity | ].
  apply (proj2 (build_transcript_raises_iff Samples.repr_str
                  Samples.message_bad_transcript AttributeError)).
  split; reflexivity.
Defined.

Lemma webhook_completes_iff_witness :
  message_type_of Samples.payload_report = Ret (JStr "end-of-call-report") /\
  well_formed_report Samples.payload_report = true /\
  (exists r,
     sample_webhook Samples.world_ok Samples.payload_report empty_store
     = (Ret status_success, append_to_calls r empty_store)) /\
  ~ (exists r,
       sample_webhook Samples.world_surrogate Samples.payload_report
         empty_store
       = (Ret status_success, append_to_calls r empty_store)).
Proof.
  assert (message_type_of Samples.payload_report
          = Ret (JStr "end-of-call-report")) as Htype by reflexivity.
  split; [exact Htype | split; [reflexivity | split]].
  - apply (proj2 (webhook_completes_iff Samples.repr_str Samples.json_loads
                    Samples.api_key Samples.printable Samples.world_ok
                    Samples.payload_report empty_store Htype)).
    split; [reflexivity | ].
    eexists _, _, _, _, _, _.
    split; [reflexivity | ]. split; [reflexivity | ].
    split; [reflexivity | ]. split; [reflexivity | ].
    split; [reflexivity | ]. split; [reflexivity | ].
    split; [reflexivity | ]. split; reflexivity.
  - intros Hrun.
    apply (proj1 (webhook_completes_iff Samples.repr_str Samples.json_loads
                    Samples.api_key Samples.printable Samples.world_surrogate
                    Samples.payload_report empty_store Htype)) in Hrun.
    destruct Hrun as (_ & call_data & phone & transcript & ai & urgency
                      & category & Hcd & _ & _ & Hb & Ha & _ & Hu & Hc & Hp2).
    vm_compute in Hcd. injection Hcd as <-.
    vm_compute in Hb. injection Hb as <-.
    vm_compute in Ha. injection Ha as <-.
    vm_compute in Hu. injection Hu as <-.
    vm_compute in Hc. injection Hc as <-.
    vm_compute in Hp2. discriminate Hp2.
Defined.

Lemma webhook_stores_service_reply_witness :
  exists r,
    sample_webhook Samples.world_ok Samples.payload_plain empty_store
    = (Ret status_success, append_to_calls r empty_store) /\
    CallRecord.phone r = JStr "Unknown" /\
    CallRecord.transcript r = "I need a checkup" /\
    CallRecord.summary r = JStr "Chest pain" /\
    CallRecord.urgency r = JStr "EMERGENCY" /\
    CallRecord.category r = JStr "Cardiology" /\
    CallRecord.duration r = JInt 0.
Proof.
  destruct (webhook_stores_service_reply Samples.repr_str Samples.json_loads
              Samples.api_key Samples.printable Samples.world_ok
              Samples.payload_plain empty_store
              [("type", JStr "end-of-call-report");
               ("transcript", JStr "I need a checkup")]
              (JStr "Unknown") "I need a checkup" Samples.complete_reply
              Samples.complete_analysis (JStr "EMERGENCY") (JStr "Cardiology")
              eq_refl eq_refl eq_refl eq_refl eq_refl eq_refl eq_refl eq_refl
              eq_refl eq_refl eq_refl eq_refl)
    as (r & Hrun & Hp & Ht & Hs & Hu & Hc & Hd & _).
  exists r. simpl in Hs, Hd.
  injection Hs as Hs. injection Hd as Hd.
  repeat split; auto.
Defined.


(** The path parameter "5" marks the record with the id "5" and not the
    one whose id is the number 5. *)
Lemma mark_callback_touches_only_matches_witness :
  calls_database (mark_callback "5" Samples.store_numeric_id).2 !! 0%nat
  = Some (Samples.call (JInt 5) false) /\
  calls_database (mark_callback "5" Samples.store_numeric_id).2 !! 1%nat
  = Some (Samples.call (JStr "5") true) /\
  mark_callback "6" Samples.store_numeric_id
  = (Ret status_updated, Samples.store_numeric_id).
Proof.
  destruct (mark_callback_touches_only_matches "5" Samples.store_numeric_id)
    as [Hother _].
  destruct (mark_callback_touches_only_matches "6" Samples.store_numeric_id)
    as [_ Hnone].
  split; [ | split; [reflexivity | ]].
  - apply (Hother 0%nat (Samples.call (JInt 5) false)); [reflexivity | ].
    discriminate.
  - apply Hnone. repeat constructor; discriminate.
Defined.

Lemma create_appointment_error_kind_witness :
  sample_appointment Samples.appointment_request_no_date
    Samples.store_duplicates
  = (Raise KeyError, Samples.store_duplicates) /\
  sample_appointment (JList []) Samples.store_duplicates
  = (Raise TypeError, Samples.store_duplicates).
Proof.
  split.
  - apply (create_appointment_error_kind Samples.repr_str
             Samples.appointment_request_no_date Samples.store_duplicates).
    reflexivity.
  - apply (create_appointment_error_kind Samples.repr_str (JList [])
             Samples.store_duplicates).
    reflexivity.
Defined.

(** Two appointments made, one request refused in between. *)
Lemma appointment_ids_numbered_witness :
  let st :=
    sample_serve_all
      [PostAppointment (Samples.appointment_request (JStr "7"));
       PostAppointment Samples.appointment_request_no_date;
       PostWebhook Samples.world_ok Samples.payload_plain;
       PostAppointment (Samples.appointment_request JNull)]
      empty_store in
  map Appointment.id (appointments_database st) = ["1"; "2"] /\
  List.NoDup (map Appointment.id (appointments_database st)).
Proof.
  intros st.
  assert (reachable Samples.repr_str Samples.json_loads Samples.api_key Samples.printable st)
    as Hreach by (eexists; reflexivity).
  destruct (appointment_ids_numbered Samples.repr_str Samples.json_loads
              Samples.api_key Samples.printable st Hreach) as [Hids Hnodup].
  split; [rewrite Hids; reflexivity | exact Hnodup].
Defined.

Lemma appointment_without_call_id_marks_nothing_witness :
  let st :=
    sample_serve_all
      [PostWebhook Samples.world_ok Samples.payload_plain;
       PostWebhook Samples.world_ok Samples.payload_external_2]
      empty_store in
  py_get (Samples.appointment_request JNull) "call_id" JNull = Ret JNull /\
  calls_database (sample_appointment (Samples.appointment_request JNull) st).2
  = calls_database st.
Proof.
  intros st.
  assert (reachable Samples.repr_str Samples.json_loads Samples.api_key Samples.printable st)
    as Hreach by (eexists; reflexivity).
  split; [reflexivity | ].
  apply (appointment_without_call_id_marks_nothing Samples.repr_str
           Samples.json_loads Samples.api_key Samples.printable st
           (Samples.appointment_request JNull) JNull Hreach);
    reflexivity.
Defined.

(** Calls come in while appointments are made and callbacks marked. *)
Lemma call_ids_numbered_witness :
  let requests :=
    [PostWebhook Samples.world_ok Samples.payload_plain;
     PostCallback "1";
     PostWebhook Samples.world_incomplete Samples.payload_plain;
     PostAppointment (Samples.appointment_request (JStr "1"));
     PostWebhook Samples.world_down Samples.payload_report;
     GetCalls] in
  without_external_ids requests = true /\
  map CallRecord.id (calls_database (sample_serve_all requests empty_store))
  = [JStr "1"; JStr "2"] /\
  List.NoDup
    (map CallRecord.id (calls_database (sample_serve_all requests empty_store))).
Proof.
  intros requests.
  assert (without_external_ids requests = true) as Hno by reflexivity.
  destruct (call_ids_numbered Samples.repr_str Samples.json_loads
              Samples.api_key Samples.printable requests Hno) as [Hauto Hnodup].
  split; [exact Hno | split; [ | exact Hnodup]].
  vm_compute. reflexivity.
Defined.

(** Three requests, the second of which fails; the third has not run. *)
Lemma schedule_keeps_numbering_witness :
  let requests :=
    [(Samples.world_ok, Samples.payload_plain);
     (Samples.world_incomplete, Samples.payload_plain);
     (Samples.world_surrogate, Samples.payload_plain);
     (Samples.world_ok, Samples.payload_report)] in
  let schedule := [3; 2; 1; 0; 1; 0; 2]%nat in
  forallb (fun request => no_external_id request.2) requests = true /\
  exists st tasks,
    run Samples.repr_str Samples.json_loads Samples.api_key Samples.printable
      schedule (empty_store, map arrive requests) = Some (st, tasks) /\
    count_inserted tasks = 1%nat /\
    count_finished tasks = 3%nat /\
    map CallRecord.id (calls_database st) = [JStr "1"; JStr "2"].
Proof.
  intros requests schedule.
  assert (forallb (fun request => no_external_id request.2) requests = true)
    as Hno by reflexivity.
  split; [exact Hno | ].
  assert (exists st tasks,
            run Samples.repr_str Samples.json_loads Samples.api_key
              Samples.printable schedule (empty_store, map arrive requests)
            = Some (st, tasks) /\
            count_inserted tasks = 1%nat /\
            count_finished tasks = 3%nat /\
            length (calls_database st) = 2%nat)
    as (st & tasks & Hrun & Hcount & Hfin & Hlen).
  { vm_compute. eexists _, _. repeat split; reflexivity. }
  exists st, tasks.
  split; [exact Hrun | split; [exact Hcount | split; [exact Hfin | ]]].
  destruct (schedule_keeps_numbering Samples.repr_str Samples.json_loads
              Samples.api_key Samples.printable requests schedule st tasks
              Hno Hrun)
    as (Hids & _ & _).
  rewrite Hids, Hlen. reflexivity.
Defined.

Lemma listing_after_storing_witness :
  let out := sample_webhook Samples.world_ok Samples.payload_plain
               Samples.store_duplicates in
  out.1 = Ret status_success /\
  exists r,
    get_calls out.2
    = (Ret (calls_database Samples.store_duplicates ++ [r]), out.2) /\
    CallRecord.id r = JStr "4".
Proof.
  intros out.
  assert (out = (Ret status_success, out.2)) as Hrun by (vm_compute; reflexivity).
  split; [reflexivity | ].
  destruct (proj1 (listing_after_storing Samples.repr_str Samples.json_loads
                     Samples.api_key Samples.printable Samples.store_duplicates)
              Samples.world_ok Samples.payload_plain out.2 Hrun) as [r Hr].
  exists r. split; [exact Hr | ].
  vm_compute in Hr. injection Hr as <-. reflexivity.
Defined.
